(** * Hotel-reservations case study: the evaluation helpers of
      [models_training_and_evaluation.ipynb]

    The notebook defines three functions of its own,
    [evaluate_model_metrics], [find_best_threshold] and
    [evaluate_model_with_threshold_params]; everything else is imported
    from [src.eda], [src.model_training] and scikit-learn.

    Numbers: Python floats are modelled by exact rationals ([Q]) plus a
    not-a-number value; rounding of binary64 arithmetic is not modelled.
    Python exceptions are an [outcome]; the interpreter state (objects
    reachable from the notebook's globals, the numpy random state and the
    cell's standard output) is threaded explicitly. *)

From Stdlib Require Import QArith Qround ZArith List Lia Lqa Permutation.
From stdpp Require Import gmap strings list fin_maps pretty.

Local Open Scope Q_scope.

(* ===================================================================== *)
(** ** Python values *)
(* ===================================================================== *)

(** A Python [float]: a number, or [nan]. *)
Inductive pyfloat : Type :=
| Fnum (q : Q)
| Fnan.

(** The values the metric dictionaries of the notebook hold: the four
    scores are floats, ["model_name"] and ["split"] are strings. *)
Inductive pyval : Type :=
| PFloat (f : pyfloat)
| PStr (s : string).

Inductive exn : Type :=
| KeyError (key : string)
| TypeError (msg : string)
| ValueError (msg : string)
| AttributeError (msg : string)
| NotFittedError.

(** Result of a Python call: a value, or a raised exception. *)
Inductive outcome (A : Type) : Type :=
| Ret (a : A)
| Raise (e : exn).
Arguments Ret {A} a.
Arguments Raise {A} e.

Definition obind {A B : Type} (m : outcome A) (k : A -> outcome B) : outcome B :=
  match m with
  | Ret a => k a
  | Raise e => Raise e
  end.

(** IEEE comparison [a > b]: false as soon as one side is [nan]. *)
Definition fgt (a b : pyfloat) : bool :=
  match a, b with
  | Fnum x, Fnum y => negb (Qle_bool x y)
  | _, _ => false
  end.

(** Two floats denote the same value (rationals up to [Qeq]). *)
Definition same_float (a b : pyfloat) : Prop :=
  match a, b with
  | Fnum x, Fnum y => x == y
  | Fnan, Fnan => True
  | _, _ => False
  end.

(** [a > b] of Python on the values a metric dictionary can hold.  A
    string against a number raises [TypeError]; two strings compare
    lexicographically. *)
Definition py_gt (a b : pyval) : outcome bool :=
  match a, b with
  | PFloat x, PFloat y => Ret (fgt x y)
  | PStr s, PStr t => Ret (String.ltb t s)
  | _, _ => Raise (TypeError "'>' not supported between instances of 'str' and 'float'")
  end.

(** [d[key]] on a dict. *)
Definition dict_getitem (d : gmap string pyval) (key : string) : outcome pyval :=
  match d !! key with
  | Some v => Ret v
  | None => Raise (KeyError key)
  end.

(* ===================================================================== *)
(** ** scikit-learn's binary classification metrics

    [sklearn.metrics] is not part of the repository; this is the
    documented behaviour of the four scorers on one-dimensional binary
    targets, which is all the notebook gives them (the label column is
    the binary cancellation flag, predictions come from binary
    classifiers).  [true] is the positive label [1]. *)
(* ===================================================================== *)

Module sklearn.

(** The message of the [ValueError] of [check_consistent_length]: it ends
    with the list of the lengths found, [[3, 2]]. *)
Definition inconsistent_msg (lengths : list nat) : string :=
  "Found input variables with inconsistent numbers of samples: ["
  +:+ String.concat ", " (map pretty lengths) +:+ "]".

(** [check_consistent_length]: every scorer starts with it. *)
Definition check_consistent_length (y_true y_pred : list bool) : outcome unit :=
  if Nat.eqb (length y_true) (length y_pred) then Ret tt
  else Raise (ValueError (inconsistent_msg [length y_true; length y_pred])).

Definition count_true (l : list bool) : nat :=
  length (List.filter (fun b => b) l).

(** Entries of the positive class: samples that are positive and
    predicted so, all predicted positives, all true positives. *)
Definition tp_sum (y_true y_pred : list bool) : nat :=
  count_true (map (fun p => fst p && snd p) (combine y_true y_pred)).
Definition pred_sum (y_pred : list bool) : nat := count_true y_pred.
Definition true_sum (y_true : list bool) : nat := count_true y_true.

Definition ratio (num den : nat) : Q := inject_Z (Z.of_nat num) / inject_Z (Z.of_nat den).

(** [_prf_divide]: the quotient, and [zero_division] where the
    denominator is zero. *)
Definition _prf_divide (num den : nat) (zero_division : Q) : Q :=
  if Nat.eqb den 0 then zero_division else ratio num den.

Definition precision_score (y_true y_pred : list bool) (zero_division : Q) : outcome pyfloat :=
  obind (check_consistent_length y_true y_pred) (fun _ =>
  Ret (Fnum (_prf_divide (tp_sum y_true y_pred) (pred_sum y_pred) zero_division))).

Definition recall_score (y_true y_pred : list bool) (zero_division : Q) : outcome pyfloat :=
  obind (check_consistent_length y_true y_pred) (fun _ =>
  Ret (Fnum (_prf_divide (tp_sum y_true y_pred) (true_sum y_true) zero_division))).

(** F-beta with beta = 1 from the confusion entries:
    [2 tp / (true_sum + pred_sum)]. *)
Definition f1_score (y_true y_pred : list bool) (zero_division : Q) : outcome pyfloat :=
  obind (check_consistent_length y_true y_pred) (fun _ =>
  Ret (Fnum (_prf_divide (2 * tp_sum y_true y_pred)
                        (true_sum y_true + pred_sum y_pred) zero_division))).

(** [accuracy_score]: the mean of [y_true == y_pred]; the mean of an
    empty array is [nan] (no [zero_division] here). *)
Definition accuracy_score (y_true y_pred : list bool) : outcome pyfloat :=
  obind (check_consistent_length y_true y_pred) (fun _ =>
  let score := map (fun p => Bool.eqb (fst p) (snd p)) (combine y_true y_pred) in
  Ret (if Nat.eqb (length score) 0 then Fnan
       else Fnum (ratio (count_true score) (length score)))).

End sklearn.

(* ===================================================================== *)
(** ** [evaluate_model_metrics] (notebook cell 2) *)
(* ===================================================================== *)

Definition evaluate_model_metrics (y y_pred : list bool) : outcome (gmap string pyval) :=
  obind (sklearn.precision_score y y_pred 0) (fun precision =>
  obind (sklearn.recall_score y y_pred 0) (fun recall =>
  obind (sklearn.f1_score y y_pred 0) (fun f1 =>
  obind (sklearn.accuracy_score y y_pred) (fun accuracy =>
  Ret (<["precision" := PFloat precision]>
       (<["recall" := PFloat recall]>
        (<["f1_score" := PFloat f1]>
         (<["accuracy" := PFloat accuracy]> ∅)))))))).

(** The same body over any four scorers: the dict display calls them
    in the order it is written, and builds the dict once all four have
    returned. *)
Section Scorers.

Variables precision_score recall_score f1_score :
  list bool -> list bool -> Q -> outcome pyfloat.
Variable accuracy_score : list bool -> list bool -> outcome pyfloat.

Definition evaluate_model_metrics_body (y y_pred : list bool)
    : outcome (gmap string pyval) :=
  obind (precision_score y y_pred 0) (fun precision =>
  obind (recall_score y y_pred 0) (fun recall =>
  obind (f1_score y y_pred 0) (fun f1 =>
  obind (accuracy_score y y_pred) (fun accuracy =>
  Ret (<["precision" := PFloat precision]>
       (<["recall" := PFloat recall]>
        (<["f1_score" := PFloat f1]>
         (<["accuracy" := PFloat accuracy]> ∅)))))))).

End Scorers.

(* ===================================================================== *)
(** ** Interpreter state and the monad of notebook code *)
(* ===================================================================== *)

Definition loc := positive.

(** One row of a feature matrix. *)
Definition row := list Q.

(** A pandas frame and a pandas series: rows under their index label. *)
Definition DataFrame := list (nat * row).
Definition Series := list (nat * bool).

(** A scikit-learn estimator object: its learning algorithm (with the
    hyper-parameters it was built with), which maps the numpy random
    state and the training data to the fitted probability of the positive
    class and the next random state; and the fitted attribute, unset until
    [fit] ran. *)
Record classifier : Type := {
  learn : N -> list row -> list bool -> (row -> Q) * N;
  fitted_ : option (row -> Q)
}.

Inductive obj : Type :=
| ObjClassifier (clf : classifier)
| ObjFrame (X : DataFrame)
| ObjSeries (y : Series).

(** A line written by [print]: the three values the f-string of
    [find_best_threshold] interpolates. *)
Inductive out_line : Type :=
| BestThresholdLine (metric : string) (best_threshold : Q) (best_metric_value : pyval).

Record state : Type := {
  heap : gmap loc obj;
  np_random : N;
  stdout : list out_line
}.

Definition M (A : Type) : Type := state -> outcome A * state.

Definition ret {A : Type} (a : A) : M A := fun s => (Ret a, s).

Definition bind {A B : Type} (m : M A) (k : A -> M B) : M B :=
  fun s => match m s with
           | (Ret a, s') => k a s'
           | (Raise e, s') => (Raise e, s')
           end.

Definition lift {A : Type} (o : outcome A) : M A := fun s => (o, s).

Notation "x <- m ;; k" := (bind m (fun x => k))
  (at level 100, m at next level, right associativity).

Definition print (line : out_line) : M unit :=
  fun s => (Ret tt, {| heap := heap s; np_random := np_random s;
                       stdout := stdout s ++ [line] |}).

(** Notebook cell 3: the seed given to [np.random.seed] and to the split. *)
Definition RANDOM_SEED : N := 101%N.

(* ===================================================================== *)
(** ** numpy *)
(* ===================================================================== *)

(** [np.arange(start, stop, step)]: [ceil((stop - start) / step)] values
    [start + i * step]. *)
Definition np_arange (start stop step : Q) : list Q :=
  map (fun i => Qred (start + inject_Z (Z.of_nat i) * step))
      (seq 0 (Z.to_nat (Qceiling ((stop - start) / step)))).

(* ===================================================================== *)
(** ** [find_best_threshold] and [evaluate_model_with_threshold_params]
       (notebook cells 30 and 46)

    Both call [evaluate_model_with_threshold], imported from
    [src.model_training]; it is a parameter here.  The metrics dict it
    returns is a dict of its own making (as [evaluate_model_metrics]
    builds one), so it is passed by value: the two keys the caller adds
    to it touch no object of the heap. *)
(* ===================================================================== *)

Section ThresholdSweep.

Variable evaluate_model_with_threshold :
  loc -> loc -> loc -> Q -> M (gmap string pyval).

(** The [for threshold in thresholds] loop, from the values the three
    locals have when it is entered. *)
Fixpoint find_best_threshold_loop (model X y : loc) (metric : string)
    (thresholds : list Q)
    (best_threshold : Q) (best_metric_value : pyval)
    (metric_values : list (Q * pyval)) : M (Q * pyval * list (Q * pyval)) :=
  match thresholds with
  | [] => ret (best_threshold, best_metric_value, metric_values)
  | threshold :: rest =>
      metrics <- evaluate_model_with_threshold model X y threshold ;;
      metric_value <- lift (dict_getitem metrics metric) ;;
      let metric_values := metric_values ++ [(threshold, metric_value)] in
      better <- lift (py_gt metric_value best_metric_value) ;;
      if (better : bool)
      then find_best_threshold_loop model X y metric rest
             threshold metric_value metric_values
      else find_best_threshold_loop model X y metric rest
             best_threshold best_metric_value metric_values
  end.

Definition find_best_threshold (model X y : loc) (metric : string)
    (thresholds : list Q) : M (Q * list (Q * pyval)) :=
  swept <- find_best_threshold_loop model X y metric thresholds
             (1 # 2) (PFloat (Fnum 0)) [] ;;
  let '(best_threshold, best_metric_value, metric_values) := swept in
  _ <- print (BestThresholdLine metric best_threshold best_metric_value) ;;
  ret (best_threshold, metric_values).

(** The default of the [thresholds] parameter. *)
Definition default_thresholds : list Q := np_arange 0 (105 # 100) (5 # 100).

(** Truth value of the [threshold] argument: [None] and [0.0] are
    false, every other float is true. *)
Definition py_truthy (threshold : option Q) : bool :=
  match threshold with
  | None => false
  | Some t => negb (Qeq_bool t 0)
  end.

Definition evaluate_model_with_threshold_params (model_name : string)
    (model X y : loc) (training_split metric : string)
    (threshold : option Q) : M (gmap string pyval) :=
  threshold <-
    (if negb (py_truthy threshold)
     then found <- find_best_threshold model X y metric default_thresholds ;;
          ret (fst found)
     else ret (default 0 threshold)) ;;
  metrics <- evaluate_model_with_threshold model X y threshold ;;
  let metrics := <["model_name" := PStr model_name]> metrics in
  let metrics := <["split" := PStr training_split]> metrics in
  ret metrics.

End ThresholdSweep.

(** Defaults of the keyword parameters of
    [evaluate_model_with_threshold_params]. *)
Definition default_training_split : string := "default".
Definition default_metric : string := "recall".

(* ===================================================================== *)
(** ** [src.model_training]

    The module is imported by the notebook but its file is not among the
    sources.  The notebook's own functions take its functions as
    parameters; the two modelled here, from the specification and from
    their call sites, serve the examples. *)
(* ===================================================================== *)

Module model_training.

Definition get_classifier (l : loc) : M classifier := fun s =>
  match heap s !! l with
  | Some (ObjClassifier c) => (Ret c, s)
  | _ => (Raise (AttributeError "predict_proba"), s)
  end.

Definition get_frame (l : loc) : M DataFrame := fun s =>
  match heap s !! l with
  | Some (ObjFrame X) => (Ret X, s)
  | _ => (Raise (AttributeError "values"), s)
  end.

Definition get_series (l : loc) : M Series := fun s =>
  match heap s !! l with
  | Some (ObjSeries y) => (Ret y, s)
  | _ => (Raise (AttributeError "values"), s)
  end.

(** [clf.predict_proba(X)[:, 1]] *)
Definition predict_proba (c : classifier) (X : DataFrame) : outcome (list Q) :=
  match fitted_ c with
  | Some p => Ret (map (fun r => p (snd r)) X)
  | None => Raise NotFittedError
  end.

(** [clf.predict(X)]: the class of larger probability. *)
Definition predict (c : classifier) (X : DataFrame) : outcome (list bool) :=
  obind (predict_proba c X) (fun proba =>
  Ret (map (fun p => negb (Qle_bool p (1 # 2))) proba)).

(** [clf.fit(X, y)]: the estimator object is updated in place and the
    numpy random state advances. *)
Definition fit (clf : loc) (X : DataFrame) (y : Series) : M unit := fun s =>
  match heap s !! clf with
  | Some (ObjClassifier c) =>
      if Nat.eqb (length X) (length y) then
        let '(p, rng) := learn c (np_random s) (map snd X) (map snd y) in
        (Ret tt,
         {| heap := <[clf := ObjClassifier {| learn := learn c; fitted_ := Some p |}]> (heap s);
            np_random := rng;
            stdout := stdout s |})
      else (Raise (ValueError (sklearn.inconsistent_msg [length X; length y])), s)
  | _ => (Raise (AttributeError "fit"), s)
  end.

(** Modelled from the spec: [evaluate_model_with_threshold] of
    [src/model_training.py] is missing.  The spec has the threshold
    sweep evaluate "a fitted probabilistic classifier at multiple
    decision thresholds", a decision threshold being "the probability
    cutoff above which a binary classifier's output is labeled
    positive"; the call sites read the result as a metrics dict. *)
Definition evaluate_model_with_threshold (model X y : loc) (threshold : Q)
    : M (gmap string pyval) :=
  clf <- get_classifier model ;;
  X_ <- get_frame X ;;
  y_ <- get_series y ;;
  proba <- lift (predict_proba clf X_) ;;
  let y_pred := map (fun p => negb (Qle_bool p threshold)) proba in
  lift (evaluate_model_metrics (map snd y_) y_pred).

(** Modelled from the spec: [train_model] of [src/model_training.py] is
    missing.  "Train step: fits a classifier on training data, returns
    predictions and metric summaries for training and validation sets";
    the call sites unpack three components, the last two being the
    training and the validation metrics dicts. *)
Definition train_model (clf X_train y_train X_val y_val : loc)
    : M ((list bool * list bool) * gmap string pyval * gmap string pyval) :=
  Xt <- get_frame X_train ;;
  yt <- get_series y_train ;;
  Xv <- get_frame X_val ;;
  yv <- get_series y_val ;;
  _ <- fit clf Xt yt ;;
  c <- get_classifier clf ;;
  y_train_pred <- lift (predict c Xt) ;;
  y_val_pred <- lift (predict c Xv) ;;
  train_metrics <- lift (evaluate_model_metrics (map snd yt) y_train_pred) ;;
  val_metrics <- lift (evaluate_model_metrics (map snd yv) y_val_pred) ;;
  ret ((y_train_pred, y_val_pred), train_metrics, val_metrics).

End model_training.

(* ===================================================================== *)
(** ** The confusion matrix, as the specification words it *)
(* ===================================================================== *)

(** Samples whose label is [actual] and whose prediction is [predicted]. *)
Definition confusion_count (actual predicted : bool) (y y_pred : list bool) : nat :=
  length (List.filter (fun p => Bool.eqb (fst p) actual && Bool.eqb (snd p) predicted)
                      (combine y y_pred)).

Definition TP := confusion_count true true.
Definition FP := confusion_count false true.
Definition FN := confusion_count true false.
Definition TN := confusion_count false false.

Definition Qnat (n : nat) : Q := inject_Z (Z.of_nat n).

(** [num / den], and 0 where the denominator is 0. *)
Definition guarded_div (num den : Q) : Q :=
  if Qeq_bool den 0 then 0 else num / den.

(** A metrics dict whose four scores are numbers of the unit interval. *)
Definition unit_score (d : gmap string pyval) (key : string) : Prop :=
  exists q : Q, d !! key = Some (PFloat (Fnum q)) /\ 0 <= q /\ q <= 1.

Definition scores_in_unit_interval (d : gmap string pyval) : Prop :=
  unit_score d "precision" /\ unit_score d "recall" /\
  unit_score d "f1_score" /\ unit_score d "accuracy".

(* ===================================================================== *)
(** ** A small run, for the examples *)
(* ===================================================================== *)

(** A scorer that reads the probability off the first feature column. *)
Definition first_column_learner : N -> list row -> list bool -> (row -> Q) * N :=
  fun rng _ _ => (fun r => hd 0 r, rng).

Definition demo_classifier : classifier :=
  {| learn := first_column_learner; fitted_ := Some (fun r => hd 0 r) |}.

Definition demo_X : DataFrame := [(0%nat, [7 # 10]); (1%nat, [1 # 5])].
Definition demo_y : Series := [(0%nat, true); (1%nat, false)].

Definition model_ref : loc := 1%positive.
Definition X_ref : loc := 2%positive.
Definition y_ref : loc := 3%positive.

(** The notebook's globals after training: a fitted model, a feature
    matrix and its labels. *)
Definition demo_state : state :=
  {| heap := <[model_ref := ObjClassifier demo_classifier]>
             (<[X_ref := ObjFrame demo_X]>
              (<[y_ref := ObjSeries demo_y]> ∅));
     np_random := RANDOM_SEED;
     stdout := [] |}.

(** The score the modelled evaluation gives the demo model at [t]. *)
Definition demo_score (metric : string) (t : Q) : pyfloat :=
  match fst (model_training.evaluate_model_with_threshold model_ref X_ref y_ref t demo_state) with
  | Ret d => match d !! metric with Some (PFloat f) => f | _ => Fnan end
  | Raise _ => Fnan
  end.

(** The same globals before training: the estimator is not fitted yet,
    and the training partition sits next to the validation one. *)
Definition unfitted_classifier : classifier :=
  {| learn := first_column_learner; fitted_ := None |}.

Definition X_train_ref : loc := 4%positive.
Definition y_train_ref : loc := 5%positive.

Definition demo_X_train : DataFrame :=
  [(2%nat, [9 # 10]); (3%nat, [3 # 10]); (4%nat, [3 # 5])].
Definition demo_y_train : Series := [(2%nat, true); (3%nat, false); (4%nat, false)].

Definition untrained_state : state :=
  {| heap := <[model_ref := ObjClassifier unfitted_classifier]>
             (<[X_ref := ObjFrame demo_X]>
              (<[y_ref := ObjSeries demo_y]>
               (<[X_train_ref := ObjFrame demo_X_train]>
                (<[y_train_ref := ObjSeries demo_y_train]> ∅))));
     np_random := RANDOM_SEED;
     stdout := [] |}.

(** The four scores of a metrics dict. *)
Definition metric_names : list string := ["precision"; "recall"; "f1_score"; "accuracy"].

(** The sweep over plain scores: what the loop of [find_best_threshold]
    keeps in [best_threshold] and [best_metric_value]. *)
Fixpoint sweep (score : Q -> pyfloat) (thresholds : list Q)
    (best_threshold : Q) (best_metric_value : pyfloat) : Q * pyfloat :=
  match thresholds with
  | [] => (best_threshold, best_metric_value)
  | threshold :: rest =>
      if fgt (score threshold) best_metric_value
      then sweep score rest threshold (score threshold)
      else sweep score rest best_threshold best_metric_value
  end.

(** The objects behind [model], [X] and [y] are the same in both states. *)
Definition same_inputs (model X y : loc) (s s' : state) : Prop :=
  heap s' !! model = heap s !! model /\
  heap s' !! X = heap s !! X /\
  heap s' !! y = heap s !! y.

(** The evaluation at one given cut-off, labelled: what
    [evaluate_model_with_threshold_params] does once the threshold is
    settled. *)
Definition evaluate_at_threshold
    (helper : loc -> loc -> loc -> Q -> M (gmap string pyval))
    (model_name : string) (model X y : loc) (training_split : string)
    (threshold : Q) : M (gmap string pyval) :=
  metrics <- helper model X y threshold ;;
  ret (<["split" := PStr training_split]> (<["model_name" := PStr model_name]> metrics)).

(** An evaluation that hands back labelled dicts: next to the four
    scores, two strings. *)
Definition labelled_evaluation (model X y : loc) (threshold : Q)
    : M (gmap string pyval) :=
  evaluate_at_threshold model_training.evaluate_model_with_threshold
    "gdbt_default" model X y "validation" threshold.

(** A scorer that raises on every input. *)
Definition failing_scorer (msg : string) : list bool -> list bool -> Q -> outcome pyfloat :=
  fun _ _ _ => Raise (ValueError msg).

(** The objects at the locations of [L] are the same in both states. *)
Definition unchanged (L : list loc) (s s' : state) : Prop :=
  forall l : loc, In l L -> heap s' !! l = heap s !! l.

(** [score t] is the value of [metric] at threshold [t] for the model and
    the data of state [s0]: in every state that holds them as [s0] does,
    evaluating the model at [t] returns a metrics dict with that entry,
    and leaves them as they are. *)
Definition metric_at (helper : loc -> loc -> loc -> Q -> M (gmap string pyval))
    (model X y : loc) (metric : string) (thresholds : list Q)
    (s0 : state) (score : Q -> pyfloat) : Prop :=
  forall (t : Q) (s : state), In t thresholds -> same_inputs model X y s0 s ->
    exists (d : gmap string pyval) (s' : state),
      helper model X y t s = (Ret d, s') /\
      same_inputs model X y s0 s' /\
      d !! metric = Some (PFloat (score t)).

(* ===================================================================== *)
(** ** The constant baselines of notebook cell 8 *)
(* ===================================================================== *)

(** [np.ones_like(y)] and [np.zeros_like(y)] on a label vector. *)
Definition np_ones_like (y : list bool) : list bool := repeat true (length y).
Definition np_zeros_like (y : list bool) : list bool := repeat false (length y).

(** The score stored under [key], when it is a number. *)
Definition score_of (d : gmap string pyval) (key : string) (q : Q) : Prop :=
  exists q' : Q, d !! key = Some (PFloat (Fnum q')) /\ q' == q.

(* ===================================================================== *)
(** ** Reading the sweep off its record *)
(* ===================================================================== *)

(** The best pair as the loop of [find_best_threshold] would keep it,
    read off the recorded [(threshold, metric_value)] pairs. *)
Fixpoint best_recorded (metric_values : list (Q * pyval))
    (best_threshold : Q) (best_metric_value : pyfloat) : Q * pyfloat :=
  match metric_values with
  | [] => (best_threshold, best_metric_value)
  | (threshold, PFloat metric_value) :: rest =>
      if fgt metric_value best_metric_value
      then best_recorded rest threshold metric_value
      else best_recorded rest best_threshold best_metric_value
  | (_, PStr _) :: rest => best_recorded rest best_threshold best_metric_value
  end.

(* ===================================================================== *)
(** ** The training cells (notebook cells 6, 7 and 10)

    The loops keep the metrics dicts [train_model] hands back, write two
    keys into each and append them to the global list
    [models_training_results].  The dicts are objects here, so that two
    names for one dict show: [dicts] maps a reference to the dict behind
    it.  [train_model] belongs to [src.model_training] and is a parameter;
    as a function of another module it works on the interpreter state and
    on dicts, not on the notebook's list. *)
(* ===================================================================== *)

Record notebook : Type := {
  interp : state;
  dicts : gmap loc (gmap string pyval)
}.

Record cell : Type := {
  nb : notebook;
  models_training_results : list loc
}.

Definition ST (S A : Type) : Type := S -> outcome A * S.

Definition st_ret {S A : Type} (a : A) : ST S A := fun s => (Ret a, s).

Definition st_bind {S A B : Type} (m : ST S A) (k : A -> ST S B) : ST S B :=
  fun s => match m s with
           | (Ret a, s') => k a s'
           | (Raise e, s') => (Raise e, s')
           end.

(** [d[key] = v] on the dict behind [r]. *)
Definition dict_setitem (r : loc) (key : string) (v : pyval) : ST notebook unit :=
  fun w => match dicts w !! r with
           | Some d => (Ret tt, {| interp := interp w;
                                   dicts := <[r := <[key := v]> d]> (dicts w) |})
           | None => (Raise (TypeError "object does not support item assignment"), w)
           end.

(** A step that works on the interpreter and the dicts, run in a cell. *)
Definition on_notebook {A : Type} (m : ST notebook A) : ST cell A :=
  fun c => match m (nb c) with
           | (o, w) => (o, {| nb := w; models_training_results := models_training_results c |})
           end.

(** [models_training_results.extend(l)] *)
Definition extend (l : list loc) : ST cell unit :=
  fun c => (Ret tt, {| nb := nb c;
                       models_training_results := models_training_results c ++ l |}).

Section TrainingCells.

Variable Predictions : Type.
Variable train_model :
  loc -> loc -> loc -> loc -> loc -> ST notebook (Predictions * loc * loc).
Variables X_train y_train X_val y_val : loc.

(** The body of [for model_name, clf in default_models.items()]. *)
Definition training_step (model_name : string) (clf : loc) : ST cell unit :=
  st_bind (on_notebook (train_model clf X_train y_train X_val y_val)) (fun r =>
  let '(_, train_metrics, val_metrics) := r in
  st_bind (on_notebook (dict_setitem train_metrics "model_name" (PStr model_name))) (fun _ =>
  st_bind (on_notebook (dict_setitem train_metrics "split" (PStr "training"))) (fun _ =>
  st_bind (on_notebook (dict_setitem val_metrics "model_name" (PStr model_name))) (fun _ =>
  st_bind (on_notebook (dict_setitem val_metrics "split" (PStr "validation"))) (fun _ =>
  extend [val_metrics; train_metrics]))))).

(** The loop over the items of a dict of models, in insertion order. *)
Fixpoint training_loop (models : list (string * loc)) : ST cell unit :=
  match models with
  | [] => st_ret tt
  | (model_name, clf) :: rest =>
      st_bind (training_step model_name clf) (fun _ => training_loop rest)
  end.

End TrainingCells.

(** The dict behind [r] carries the two labels. *)
Definition labelled (w : notebook) (r : loc) (model_name split : string) : Prop :=
  exists d : gmap string pyval,
    dicts w !! r = Some d /\
    d !! "model_name" = Some (PStr model_name) /\
    d !! "split" = Some (PStr split).

(** [train_model] hands back two different dicts, both new. *)
Definition fresh_summaries {Predictions : Type}
    (train_model : loc -> loc -> loc -> loc -> loc -> ST notebook (Predictions * loc * loc))
    : Prop :=
  forall (clf X_train y_train X_val y_val : loc) (w : notebook)
         (p : Predictions) (train_metrics val_metrics : loc) (w' : notebook),
    train_model clf X_train y_train X_val y_val w = (Ret (p, train_metrics, val_metrics), w') ->
    train_metrics <> val_metrics /\
    dicts w !! train_metrics = None /\
    dicts w !! val_metrics = None /\
    is_Some (dicts w' !! train_metrics) /\
    is_Some (dicts w' !! val_metrics) /\
    (forall r d, dicts w !! r = Some d -> dicts w' !! r = Some d).

(** The modelled [train_model] in a cell: its two summaries are stored as
    two new dict objects. *)
Definition demo_cell_train_model (clf X_train y_train X_val y_val : loc)
    : ST notebook ((list bool * list bool) * loc * loc) :=
  fun w =>
    match model_training.train_model clf X_train y_train X_val y_val (interp w) with
    | (Raise e, s) => (Raise e, {| interp := s; dicts := dicts w |})
    | (Ret (p, train_metrics, val_metrics), s) =>
        let tr := fresh (dom (dicts w)) in
        let va := fresh ({[tr]} ∪ dom (dicts w)) in
        (Ret (p, tr, va),
         {| interp := s;
            dicts := <[va := val_metrics]> (<[tr := train_metrics]> (dicts w)) |})
    end.

(** Cell 6: the list starts empty; no metrics dict exists yet. *)
Definition demo_cell : cell :=
  {| nb := {| interp := untrained_state; dicts := ∅ |};
     models_training_results := [] |}.

(** A [train_model] that summarises both sets in one dict object. *)
Definition one_dict_train_model (clf X_train y_train X_val y_val : loc)
    : ST notebook ((list bool * list bool) * loc * loc) :=
  fun w =>
    match model_training.train_model clf X_train y_train X_val y_val (interp w) with
    | (Raise e, s) => (Raise e, {| interp := s; dicts := dicts w |})
    | (Ret (p, train_metrics, _), s) =>
        let r := fresh (dom (dicts w)) in
        (Ret (p, r, r), {| interp := s; dicts := <[r := train_metrics]> (dicts w) |})
    end.

(* ===================================================================== *)
(** * Properties of [evaluate_model_metrics] *)
(* ===================================================================== *)

Section MetricsFacts.

Lemma check_consistent_length_ok (y y_pred : list bool) :
  length y = length y_pred ->
  sklearn.check_consistent_length y y_pred = Ret tt.
Proof.
  intros H. unfold sklearn.check_consistent_length.
  rewrite H, Nat.eqb_refl. reflexivity.
Qed.

Lemma check_consistent_length_raises (y y_pred : list bool) :
  length y <> length y_pred ->
  sklearn.check_consistent_length y y_pred =
    Raise (ValueError (sklearn.inconsistent_msg [length y; length y_pred])).
Proof.
  intros H. unfold sklearn.check_consistent_length.
  apply Nat.eqb_neq in H. rewrite H. reflexivity.
Qed.

(** The library's sums are the confusion-matrix entries. *)
Lemma sums_confusion (y y_pred : list bool) :
  length y = length y_pred ->
  sklearn.tp_sum y y_pred = TP y y_pred /\
  sklearn.pred_sum y_pred = (TP y y_pred + FP y y_pred)%nat /\
  sklearn.true_sum y = (TP y y_pred + FN y y_pred)%nat /\
  sklearn.count_true (map (fun p => Bool.eqb (fst p) (snd p)) (combine y y_pred))
    = (TP y y_pred + TN y y_pred)%nat /\
  length (combine y y_pred)
    = (TP y y_pred + FP y y_pred + FN y y_pred + TN y y_pred)%nat.
Proof.
  revert y_pred. induction y as [|a y IH]; intros [|b y_pred] Hlen;
    try discriminate.
  - repeat split; reflexivity.
  - injection Hlen as Hlen. specialize (IH y_pred Hlen).
    destruct IH as (H1 & H2 & H3 & H4 & H5).
    unfold sklearn.tp_sum, sklearn.pred_sum, sklearn.true_sum, sklearn.count_true,
      TP, FP, FN, TN, confusion_count in *.
    destruct a, b; cbn [combine map List.filter fst snd andb Bool.eqb length];
      repeat split; lia.
Qed.

(** What the function returns on vectors of one length, in
    confusion-matrix entries. *)
Lemma evaluate_model_metrics_value (y y_pred : list bool) :
  length y = length y_pred ->
  let tp := TP y y_pred in
  let fp := FP y y_pred in
  let fn := FN y y_pred in
  let tn := TN y y_pred in
  evaluate_model_metrics y y_pred =
    Ret (<["precision" := PFloat (Fnum (sklearn._prf_divide tp (tp + fp) 0))]>
         (<["recall" := PFloat (Fnum (sklearn._prf_divide tp (tp + fn) 0))]>
          (<["f1_score" := PFloat (Fnum (sklearn._prf_divide (2 * tp) ((tp + fn) + (tp + fp)) 0))]>
           (<["accuracy" := PFloat (if Nat.eqb (tp + fp + fn + tn) 0 then Fnan
                                    else Fnum (sklearn.ratio (tp + tn) (tp + fp + fn + tn)))]>
            ∅)))).
Proof.
  intros Hlen. cbv zeta.
  destruct (sums_confusion y y_pred Hlen) as (H1 & H2 & H3 & H4 & H5).
  unfold evaluate_model_metrics, sklearn.precision_score, sklearn.recall_score,
    sklearn.f1_score, sklearn.accuracy_score.
  rewrite (check_consistent_length_ok _ _ Hlen). cbn [obind].
  rewrite length_map, H1, H2, H3, H4, H5. reflexivity.
Qed.

Lemma Qnat_nonneg (n : nat) : 0 <= Qnat n.
Proof. unfold Qnat. change 0 with (inject_Z 0). rewrite <- Zle_Qle. lia. Qed.

Lemma Qnat_pos (n : nat) : (0 < n)%nat -> 0 < Qnat n.
Proof. intros H. unfold Qnat. change 0 with (inject_Z 0). rewrite <- Zlt_Qlt. lia. Qed.

Lemma Qnat_plus (a b : nat) : Qnat (a + b) == Qnat a + Qnat b.
Proof. unfold Qnat. rewrite Nat2Z.inj_add, inject_Z_plus. reflexivity. Qed.

Lemma Qnat_zero_iff (n : nat) : Qnat n == 0 <-> n = 0%nat.
Proof.
  unfold Qnat. change 0 with (inject_Z 0). rewrite inject_Z_injective. lia.
Qed.

Lemma ratio_Qnat (a b : nat) : sklearn.ratio a b = Qnat a / Qnat b.
Proof. reflexivity. Qed.

(** The library's guard on the count and the guard on the rational
    denominator agree. *)
Lemma prf_divide_guarded (num den : nat) :
  sklearn._prf_divide num den 0 = guarded_div (Qnat num) (Qnat den).
Proof.
  unfold sklearn._prf_divide, guarded_div.
  destruct (Nat.eqb_spec den 0) as [->|Hne].
  - reflexivity.
  - destruct (Qeq_bool (Qnat den) 0) eqn:E.
    + apply Qeq_bool_eq in E. apply Qnat_zero_iff in E. contradiction.
    + reflexivity.
Qed.

Lemma ratio_unit (a b : nat) :
  (a <= b)%nat -> (0 < b)%nat -> 0 <= sklearn.ratio a b /\ sklearn.ratio a b <= 1.
Proof.
  intros Hab Hb. rewrite ratio_Qnat.
  pose proof (Qnat_pos b Hb) as Hpos. split.
  - apply Qle_shift_div_l; [assumption|]. rewrite Qmult_0_l. apply Qnat_nonneg.
  - apply Qle_shift_div_r; [assumption|]. rewrite Qmult_1_l.
    unfold Qnat. rewrite <- Zle_Qle. lia.
Qed.

Lemma prf_divide_unit (a b : nat) :
  (a <= b)%nat -> 0 <= sklearn._prf_divide a b 0 /\ sklearn._prf_divide a b 0 <= 1.
Proof.
  intros Hab. unfold sklearn._prf_divide.
  destruct (Nat.eqb_spec b 0) as [->|Hne].
  - split; [apply Qle_refl | discriminate].
  - apply ratio_unit; lia.
Qed.

(** The harmonic mean of precision and recall, from the entries. *)
Lemma f1_harmonic (tp fp fn : nat) :
  sklearn._prf_divide (2 * tp) ((tp + fn) + (tp + fp)) 0 ==
  guarded_div (2 * sklearn._prf_divide tp (tp + fp) 0 * sklearn._prf_divide tp (tp + fn) 0)
              (sklearn._prf_divide tp (tp + fp) 0 + sklearn._prf_divide tp (tp + fn) 0).
Proof.
  destruct (Nat.eq_dec tp 0%nat) as [->|Htp].
  - (* no true positive: precision, recall and F1 are all 0 *)
    assert (Hz : forall d : nat, sklearn._prf_divide 0 d 0 == 0).
    { intros d. unfold sklearn._prf_divide. destruct (Nat.eqb d 0); [reflexivity|].
      rewrite ratio_Qnat. unfold Qnat. simpl. unfold Qdiv. apply Qmult_0_l. }
    change (2 * 0)%nat with 0%nat. rewrite Hz.
    unfold guarded_div.
    destruct (Qeq_bool _ 0) eqn:E; [reflexivity|].
    apply Qeq_bool_neq in E. exfalso. apply E. rewrite !Hz. reflexivity.
  - unfold sklearn._prf_divide.
    destruct (Nat.eqb_spec (tp + fn + (tp + fp)) 0) as [Hbad|_]; [lia|].
    destruct (Nat.eqb_spec (tp + fp) 0) as [Hbad|_]; [lia|].
    destruct (Nat.eqb_spec (tp + fn) 0) as [Hbad|_]; [lia|].
    rewrite !ratio_Qnat.
    assert (Ha : 0 < Qnat tp) by (apply Qnat_pos; lia).
    assert (Hp : 0 < Qnat (tp + fp)) by (apply Qnat_pos; lia).
    assert (Hq : 0 < Qnat (tp + fn)) by (apply Qnat_pos; lia).
    assert (Hs : Qnat (2 * tp) == 2 * Qnat tp).
    { replace (2 * tp)%nat with (tp + tp)%nat by lia. rewrite Qnat_plus. ring. }
    assert (Hd : Qnat (tp + fn + (tp + fp)) == Qnat (tp + fn) + Qnat (tp + fp))
      by apply Qnat_plus.
    set (a := Qnat tp) in *. set (p := Qnat (tp + fp)) in *.
    set (q := Qnat (tp + fn)) in *.
    assert (Hsum : 0 < a / p + a / q).
    { assert (0 < a / p).
      { apply Qlt_shift_div_l; [assumption|]. rewrite Qmult_0_l. assumption. }
      assert (0 < a / q).
      { apply Qlt_shift_div_l; [assumption|]. rewrite Qmult_0_l. assumption. }
      lra. }
    assert (Hne : ~ a / p + a / q == 0).
    { intros H0. rewrite H0 in Hsum. revert Hsum. apply Qlt_irrefl. }
    unfold guarded_div.
    destruct (Qeq_bool (a / p + a / q) 0) eqn:E.
    + apply Qeq_bool_eq in E. contradiction.
    + rewrite Hs, Hd. field. repeat split; try lra.
      assert (0 < a * q) by (apply Qmult_lt_0_compat; assumption).
      assert (0 < a * p) by (apply Qmult_lt_0_compat; assumption).
      lra.
Qed.

Lemma guarded_div_compat (a a' b b' : Q) :
  a == a' -> b == b' -> guarded_div a b == guarded_div a' b'.
Proof.
  intros Ha Hb. unfold guarded_div.
  destruct (Qeq_bool b 0) eqn:E; destruct (Qeq_bool b' 0) eqn:E'.
  - reflexivity.
  - apply Qeq_bool_eq in E. apply Qeq_bool_neq in E'.
    exfalso. apply E'. rewrite <- Hb. assumption.
  - apply Qeq_bool_neq in E. apply Qeq_bool_eq in E'.
    exfalso. apply E. rewrite Hb. assumption.
  - rewrite Ha, Hb. reflexivity.
Qed.

End MetricsFacts.

(** C2. On a label vector and a prediction vector over {0,1} with one
    prediction per label, [evaluate_model_metrics] returns a dict whose
    precision is TP/(TP+FP), whose recall is TP/(TP+FN), whose F1 is
    2*precision*recall/(precision+recall), each being 0 where its
    denominator is 0, and whose accuracy is (TP+TN)/total (the quotient
    0/0 of the empty pair being nan). *)
Theorem evaluate_model_metrics_confusion_matrix (y y_pred : list bool) :
  length y = length y_pred ->
  let tp := Qnat (TP y y_pred) in
  let fp := Qnat (FP y y_pred) in
  let fn := Qnat (FN y y_pred) in
  let tn := Qnat (TN y y_pred) in
  let total := tp + fp + fn + tn in
  exists (d : gmap string pyval) (precision recall f1 : Q) (accuracy : pyfloat),
    evaluate_model_metrics y y_pred = Ret d /\
    d !! "precision" = Some (PFloat (Fnum precision)) /\
    d !! "recall" = Some (PFloat (Fnum recall)) /\
    d !! "f1_score" = Some (PFloat (Fnum f1)) /\
    d !! "accuracy" = Some (PFloat accuracy) /\
    precision == guarded_div tp (tp + fp) /\
    recall == guarded_div tp (tp + fn) /\
    f1 == guarded_div (2 * precision * recall) (precision + recall) /\
    (~ total == 0 -> same_float accuracy (Fnum ((tp + tn) / total))) /\
    (total == 0 -> accuracy = Fnan).
Proof.
  intros Hlen. cbv zeta.
  rewrite (evaluate_model_metrics_value y y_pred Hlen). cbv zeta.
  set (tp := TP y y_pred). set (fp := FP y y_pred).
  set (fn := FN y y_pred). set (tn := TN y y_pred).
  assert (Htot : Qnat tp + Qnat fp + Qnat fn + Qnat tn == Qnat (tp + fp + fn + tn)).
  { rewrite !Qnat_plus. reflexivity. }
  eexists. exists (sklearn._prf_divide tp (tp + fp) 0).
  exists (sklearn._prf_divide tp (tp + fn) 0).
  exists (sklearn._prf_divide (2 * tp) ((tp + fn) + (tp + fp)) 0).
  eexists.
  split; [reflexivity|].
  split; [reflexivity|]. split; [reflexivity|]. split; [reflexivity|].
  split; [reflexivity|].
  split; [|split; [|split; [|split]]].
  - rewrite prf_divide_guarded. apply guarded_div_compat; [reflexivity|apply Qnat_plus].
  - rewrite prf_divide_guarded. apply guarded_div_compat; [reflexivity|apply Qnat_plus].
  - apply f1_harmonic.
  - intros Hne. destruct (Nat.eqb_spec (tp + fp + fn + tn) 0) as [Hz|Hnz].
    + exfalso. apply Hne. rewrite Htot, Hz. reflexivity.
    + cbn [same_float]. rewrite ratio_Qnat, Htot, Qnat_plus. reflexivity.
  - intros Hz. rewrite Htot in Hz. apply Qnat_zero_iff in Hz.
    rewrite Hz. reflexivity.
Qed.

Lemma evaluate_model_metrics_confusion_matrix_witness :
  length [true; false; true; true] = length [true; true; false; true] /\
  exists (d : gmap string pyval) (precision recall f1 : Q) (accuracy : pyfloat),
    evaluate_model_metrics [true; false; true; true] [true; true; false; true] = Ret d /\
    d !! "precision" = Some (PFloat (Fnum precision)) /\
    d !! "recall" = Some (PFloat (Fnum recall)) /\
    d !! "f1_score" = Some (PFloat (Fnum f1)) /\
    d !! "accuracy" = Some (PFloat accuracy) /\
    precision == guarded_div (Qnat 2) (Qnat 2 + Qnat 1) /\
    recall == guarded_div (Qnat 2) (Qnat 2 + Qnat 1) /\
    f1 == guarded_div (2 * precision * recall) (precision + recall) /\
    (~ Qnat 2 + Qnat 1 + Qnat 1 + Qnat 0 == 0 ->
     same_float accuracy (Fnum ((Qnat 2 + Qnat 0) / (Qnat 2 + Qnat 1 + Qnat 1 + Qnat 0)))) /\
    (Qnat 2 + Qnat 1 + Qnat 1 + Qnat 0 == 0 -> accuracy = Fnan).
Proof.
  split; [reflexivity|].
  exact (evaluate_model_metrics_confusion_matrix
           [true; false; true; true] [true; true; false; true] eq_refl).
Defined.

(** Hand-computed values on small fixed inputs.  Eight samples with
    TP = 3, FP = 2, FN = 1, TN = 2. *)
Example metrics_of_eight_samples :
  exists d : gmap string pyval,
    evaluate_model_metrics [true; false; true; true; false; false; true; false]
                           [true; true; false; true; false; false; true; true] = Ret d /\
    d !! "precision" = Some (PFloat (Fnum (3 # 5))) /\
    d !! "recall" = Some (PFloat (Fnum (3 # 4))) /\
    d !! "f1_score" = Some (PFloat (Fnum (6 # 9))) /\
    d !! "accuracy" = Some (PFloat (Fnum (5 # 8))).
Proof. eexists. split; [vm_compute; reflexivity|]. repeat split. Qed.

(** The two constant baselines of the notebook ([np.ones_like],
    [np.zeros_like]): predicting 1 everywhere has recall 1 and a precision
    equal to its accuracy, predicting 0 everywhere has precision, recall
    and F1 all 0, as in the tables the notebook displays. *)
Example always_ones_scores :
  exists d : gmap string pyval,
    evaluate_model_metrics [true; false; false] [true; true; true] = Ret d /\
    d !! "precision" = Some (PFloat (Fnum (1 # 3))) /\
    d !! "recall" = Some (PFloat (Fnum 1)) /\
    d !! "accuracy" = Some (PFloat (Fnum (1 # 3))).
Proof. eexists. split; [vm_compute; reflexivity|]. repeat split. Qed.

Example always_zeros_scores :
  exists d : gmap string pyval,
    evaluate_model_metrics [true; false; false] [false; false; false] = Ret d /\
    d !! "precision" = Some (PFloat (Fnum 0)) /\
    d !! "recall" = Some (PFloat (Fnum 0)) /\
    d !! "f1_score" = Some (PFloat (Fnum 0)) /\
    d !! "accuracy" = Some (PFloat (Fnum (2 # 3))).
Proof. eexists. split; [vm_compute; reflexivity|]. repeat split. Qed.

(** C10, as the code has it.  On a non-empty label vector and a prediction
    vector of the same length, [evaluate_model_metrics] raises nothing,
    whatever the zero denominators, and its four scores are numbers of the
    closed interval [0, 1]. *)
Theorem evaluate_model_metrics_unit_interval (y y_pred : list bool) :
  length y = length y_pred -> y <> [] ->
  exists d : gmap string pyval,
    evaluate_model_metrics y y_pred = Ret d /\ scores_in_unit_interval d.
Proof.
  intros Hlen Hne.
  rewrite (evaluate_model_metrics_value y y_pred Hlen). cbv zeta.
  destruct (sums_confusion y y_pred Hlen) as (_ & _ & _ & _ & H5).
  rewrite length_combine, <- Hlen, Nat.min_id in H5.
  set (tp := TP y y_pred) in *. set (fp := FP y y_pred) in *.
  set (fn := FN y y_pred) in *. set (tn := TN y y_pred) in *.
  assert (Hpos : (0 < tp + fp + fn + tn)%nat).
  { rewrite <- H5. destruct y; [contradiction | simpl; lia]. }
  assert (Hnz : Nat.eqb (tp + fp + fn + tn) 0 = false) by (apply Nat.eqb_neq; lia).
  rewrite Hnz.
  eexists. split; [reflexivity|].
  unfold scores_in_unit_interval, unit_score.
  split; [|split; [|split]]; eexists; (split; [reflexivity|]).
  - apply prf_divide_unit. lia.
  - apply prf_divide_unit. lia.
  - apply prf_divide_unit. lia.
  - apply ratio_unit; lia.
Qed.

Lemma evaluate_model_metrics_unit_interval_witness :
  length [true; false] = length [false; false] /\
  [true; false] <> @nil bool /\
  exists d : gmap string pyval,
    evaluate_model_metrics [true; false] [false; false] = Ret d /\
    scores_in_unit_interval d.
Proof.
  split; [reflexivity|]. split; [discriminate|].
  apply (evaluate_model_metrics_unit_interval [true; false] [false; false]);
    [reflexivity | discriminate].
Defined.

(** C10 as stated fails twice: on vectors of different lengths the call
    raises [ValueError], and on the empty pair the accuracy is nan, which
    lies in no interval. *)
Lemma evaluate_model_metrics_degenerate :
  ~ (exists d : gmap string pyval, evaluate_model_metrics [true] [] = Ret d) /\
  ~ (exists d : gmap string pyval,
       evaluate_model_metrics [] [] = Ret d /\ scores_in_unit_interval d).
Proof.
  split.
  - intros [d H]. vm_compute in H. discriminate.
  - intros [d [H (_ & _ & _ & q & Hq & _)]].
    rewrite (evaluate_model_metrics_value [] [] eq_refl) in H.
    injection H as <-. vm_compute in Hq. discriminate.
Qed.

(* ===================================================================== *)
(** * Properties of the threshold sweep *)
(* ===================================================================== *)

Section SweepFacts.

Variable helper : loc -> loc -> loc -> Q -> M (gmap string pyval).
Variables model X y : loc.
Variable metric : string.

Lemma fgt_true (a b : pyfloat) :
  fgt a b = true <-> exists p q, a = Fnum p /\ b = Fnum q /\ q < p.
Proof.
  destruct a as [p|], b as [q|]; cbn [fgt]; split;
    try discriminate; try (intros (p' & q' & H1 & H2 & _); discriminate).
  - intros H. exists p, q. repeat split.
    apply Qnot_le_lt. intros Hle. apply Qle_bool_iff in Hle.
    rewrite Hle in H. discriminate.
  - intros (p' & q' & [= <-] & [= <-] & Hlt).
    destruct (Qle_bool p q) eqn:E; [|reflexivity].
    apply Qle_bool_iff in E. exfalso. apply (Qlt_not_le _ _ Hlt E).
Qed.

Lemma fgt_false_num (p q : Q) : fgt (Fnum p) (Fnum q) = false <-> p <= q.
Proof.
  cbn [fgt]. rewrite Bool.negb_false_iff. apply Qle_bool_iff.
Qed.

Lemma fgt_trans (a b c : pyfloat) :
  fgt a b = true -> fgt b c = true -> fgt a c = true.
Proof.
  rewrite !fgt_true.
  intros (p & q & -> & -> & H1) (q' & r & [= <-] & -> & H2).
  exists p, r. repeat split. eapply Qlt_trans; eassumption.
Qed.

(** Below a value that beats [c], nothing that does not beat [c] ties
    with it or beats it. *)
Lemma fgt_below (a b c : pyfloat) :
  fgt a c = false -> fgt b c = true ->
  fgt a b = false /\ ~ same_float a b.
Proof.
  intros Ha Hb. apply fgt_true in Hb. destruct Hb as (p & q & -> & -> & Hlt).
  destruct a as [x|]; [|split; [reflexivity | intros []]].
  apply fgt_false_num in Ha. split.
  - apply fgt_false_num. apply Qlt_le_weak. eapply Qle_lt_trans; eassumption.
  - cbn [same_float]. intros Heq. rewrite Heq in Ha.
    apply (Qlt_not_le _ _ Hlt Ha).
Qed.

Lemma fgt_irrefl_rev (a b : pyfloat) :
  fgt b a = true -> fgt a b = false /\ ~ same_float a b.
Proof.
  intros H. apply fgt_true in H. destruct H as (p & q & -> & -> & Hlt). split.
  - apply fgt_false_num. apply Qlt_le_weak. assumption.
  - cbn [same_float]. intros Heq. rewrite Heq in Hlt.
    apply (Qlt_irrefl _ Hlt).
Qed.

(** What the sweep ends with: the initial pair, no score beating the
    initial value; or the first threshold of the list reaching the
    greatest score. *)
Lemma sweep_spec (score : Q -> pyfloat) (thresholds : list Q) :
  forall (bt : Q) (bv : pyfloat),
    (sweep score thresholds bt bv = (bt, bv) /\
     forall t, In t thresholds -> fgt (score t) bv = false)
    \/
    (exists (best : Q) (before after : list Q),
       sweep score thresholds bt bv = (best, score best) /\
       thresholds = before ++ best :: after /\
       fgt (score best) bv = true /\
       (forall t, In t before ->
          fgt (score t) (score best) = false /\ ~ same_float (score t) (score best)) /\
       (forall t, In t after -> fgt (score t) (score best) = false)).
Proof.
  induction thresholds as [|t rest IH]; intros bt bv.
  - left. split; [reflexivity | intros t []].
  - cbn [sweep]. destruct (fgt (score t) bv) eqn:Hgt.
    + right. destruct (IH t (score t)) as [[Heq Hall] | (best & before & after & Heq & Hsplit & Hbest & Hbefore & Hafter)].
      * exists t, [], rest. split; [assumption|].
        split; [reflexivity|]. split; [assumption|].
        split; [intros u [] | assumption].
      * exists best, (t :: before), after. split; [assumption|].
        split; [rewrite Hsplit; reflexivity|].
        split; [eapply fgt_trans; eassumption|].
        split; [|assumption].
        intros u [<- | Hu]; [apply fgt_irrefl_rev; assumption | apply Hbefore; assumption].
    + destruct (IH bt bv) as [[Heq Hall] | (best & before & after & Heq & Hsplit & Hbest & Hbefore & Hafter)].
      * left. split; [assumption|].
        intros u [<- | Hu]; [assumption | apply Hall; assumption].
      * right. exists best, (t :: before), after. split; [assumption|].
        split; [rewrite Hsplit; reflexivity|].
        split; [assumption|]. split; [|assumption].
        intros u [<- | Hu]; [eapply fgt_below; eassumption | apply Hbefore; assumption].
Qed.

Lemma same_inputs_refl (s : state) : same_inputs model X y s s.
Proof. repeat split. Qed.

Lemma same_inputs_trans (s1 s2 s3 : state) :
  same_inputs model X y s1 s2 -> same_inputs model X y s2 s3 ->
  same_inputs model X y s1 s3.
Proof.
  intros (A1 & A2 & A3) (B1 & B2 & B3).
  repeat split; etransitivity; eassumption.
Qed.

(** With scores as in [metric_at] the loop raises nothing and computes
    the sweep. *)
Lemma loop_scored (score : Q -> pyfloat) (s0 : state) (thresholds : list Q) :
  metric_at helper model X y metric thresholds s0 score ->
  forall (bt : Q) (bv : pyfloat) (mvs : list (Q * pyval)) (s : state),
  same_inputs model X y s0 s ->
  exists s' : state,
    find_best_threshold_loop helper model X y metric thresholds bt (PFloat bv) mvs s =
      (Ret (fst (sweep score thresholds bt bv),
            PFloat (snd (sweep score thresholds bt bv)),
            mvs ++ map (fun t => (t, PFloat (score t))) thresholds), s') /\
    same_inputs model X y s0 s'.
Proof.
  induction thresholds as [|t rest IH]; intros Hscore bt bv mvs s Hs.
  - exists s. cbn. rewrite app_nil_r. split; [reflexivity | assumption].
  - assert (Hrest : metric_at helper model X y metric rest s0 score).
    { intros u s1 Hu. apply Hscore. right. assumption. }
    destruct (Hscore t s (or_introl eq_refl) Hs) as (d & s1 & Hcall & Hs1 & Hd).
    cbn [find_best_threshold_loop sweep map]. unfold bind at 1. rewrite Hcall.
    unfold bind at 1, lift at 1, dict_getitem. rewrite Hd.
    unfold bind at 1, lift at 1. cbn [py_gt].
    destruct (fgt (score t) bv).
    + destruct (IH Hrest t (score t) (mvs ++ [(t, PFloat (score t))]) s1 Hs1)
        as (s' & Hs' & Hinv).
      exists s'. rewrite Hs'. rewrite <- app_assoc. split; [reflexivity | assumption].
    + destruct (IH Hrest bt bv (mvs ++ [(t, PFloat (score t))]) s1 Hs1)
        as (s' & Hs' & Hinv).
      exists s'. rewrite Hs'. rewrite <- app_assoc. split; [reflexivity | assumption].
Qed.

Lemma find_best_threshold_scored (score : Q -> pyfloat) (thresholds : list Q) (s0 : state) :
  metric_at helper model X y metric thresholds s0 score ->
  exists s' : state,
    find_best_threshold helper model X y metric thresholds s0 =
      (Ret (fst (sweep score thresholds (1 # 2) (Fnum 0)),
            map (fun t => (t, PFloat (score t))) thresholds), s') /\
    same_inputs model X y s0 s'.
Proof.
  intros Hscore.
  destruct (loop_scored score s0 thresholds Hscore (1 # 2) (Fnum 0) [] s0
              (same_inputs_refl s0)) as (s1 & H1 & Hinv).
  unfold find_best_threshold, bind. rewrite H1. cbn.
  eexists. split; [reflexivity | exact Hinv].
Qed.

End SweepFacts.

(** The default grid: 0, 0.05, ..., 1. *)
Example default_thresholds_grid :
  default_thresholds =
    [0; 1 # 20; 1 # 10; 3 # 20; 1 # 5; 1 # 4; 3 # 10; 7 # 20; 2 # 5; 9 # 20; 1 # 2;
     11 # 20; 3 # 5; 13 # 20; 7 # 10; 3 # 4; 4 # 5; 17 # 20; 9 # 10; 19 # 20; 1].
Proof. reflexivity. Qed.

(** C1, as the code has it.  Whenever some supplied threshold reaches a
    metric value strictly greater than 0, [find_best_threshold] returns as
    its first component a threshold of the supplied list whose metric value
    is the maximum of the metric values over the list. *)
Theorem find_best_threshold_maximises
    (helper : loc -> loc -> loc -> Q -> M (gmap string pyval))
    (model X y : loc) (metric : string) (thresholds : list Q)
    (s0 : state) (score : Q -> pyfloat) :
  metric_at helper model X y metric thresholds s0 score ->
  (exists t, In t thresholds /\ fgt (score t) (Fnum 0) = true) ->
  exists (best : Q) (metric_values : list (Q * pyval)) (s' : state),
    find_best_threshold helper model X y metric thresholds s0 =
      (Ret (best, metric_values), s') /\
    In best thresholds /\
    exists q : Q, score best = Fnum q /\
      forall (t : Q) (q' : Q), In t thresholds -> score t = Fnum q' -> q' <= q.
Proof.
  intros Hscore (t0 & Hin0 & Hpos0).
  destruct (find_best_threshold_scored helper model X y metric score thresholds s0 Hscore)
    as (s' & Hrun & _).
  destruct (sweep_spec score thresholds (1 # 2) (Fnum 0))
    as [[_ Hall] | (best & before & after & Heq & Hsplit & Hbest & Hbefore & Hafter)].
  - rewrite (Hall t0 Hin0) in Hpos0. discriminate.
  - rewrite Heq in Hrun. cbn [fst] in Hrun.
    exists best, (map (fun t => (t, PFloat (score t))) thresholds), s'.
    split; [exact Hrun|].
    split; [rewrite Hsplit; apply in_or_app; right; left; reflexivity|].
    apply fgt_true in Hbest. destruct Hbest as (q & z & Hq & _ & _).
    exists q. split; [exact Hq|].
    intros t q' Hin Ht. rewrite <- fgt_false_num, <- Ht, <- Hq.
    rewrite Hsplit in Hin. apply in_app_or in Hin.
    destruct Hin as [Hin | [<- | Hin]].
    + apply Hbefore. assumption.
    + rewrite Hq. apply fgt_false_num. apply Qle_refl.
    + apply Hafter. assumption.
Qed.

(** C8.  If no supplied threshold reaches a metric value strictly greater
    than 0, [find_best_threshold] returns 0.5, its initial value, whether
    or not 0.5 is in the list; otherwise it returns the earliest threshold,
    in iteration order, among those that reach the greatest value. *)
Theorem find_best_threshold_default_and_ties
    (helper : loc -> loc -> loc -> Q -> M (gmap string pyval))
    (model X y : loc) (metric : string) (thresholds : list Q)
    (s0 : state) (score : Q -> pyfloat) :
  metric_at helper model X y metric thresholds s0 score ->
  ((forall t, In t thresholds -> fgt (score t) (Fnum 0) = false) ->
   exists (metric_values : list (Q * pyval)) (s' : state),
     find_best_threshold helper model X y metric thresholds s0 =
       (Ret (1 # 2, metric_values), s'))
  /\
  ((exists t, In t thresholds /\ fgt (score t) (Fnum 0) = true) ->
   exists (best : Q) (before after : list Q)
          (metric_values : list (Q * pyval)) (s' : state),
     find_best_threshold helper model X y metric thresholds s0 =
       (Ret (best, metric_values), s') /\
     thresholds = before ++ best :: after /\
     fgt (score best) (Fnum 0) = true /\
     (forall t, In t thresholds -> fgt (score t) (score best) = false) /\
     (forall t, In t before -> ~ same_float (score t) (score best))).
Proof.
  intros Hscore.
  destruct (find_best_threshold_scored helper model X y metric score thresholds s0 Hscore)
    as (s' & Hrun & _).
  destruct (sweep_spec score thresholds (1 # 2) (Fnum 0))
    as [[Heq Hall] | (best & before & after & Heq & Hsplit & Hbest & Hbefore & Hafter)];
    rewrite Heq in Hrun; cbn [fst] in Hrun.
  - split.
    + intros _. eexists. eexists. exact Hrun.
    + intros (t0 & Hin0 & Hpos0). rewrite (Hall t0 Hin0) in Hpos0. discriminate.
  - split.
    + intros Hnone. exfalso.
      assert (Hin : In best thresholds)
        by (rewrite Hsplit; apply in_or_app; right; left; reflexivity).
      rewrite (Hnone best Hin) in Hbest. discriminate.
    + intros _. exists best, before, after. eexists. eexists.
      split; [exact Hrun|]. split; [exact Hsplit|]. split; [exact Hbest|].
      split.
      * intros t Hin. rewrite Hsplit in Hin. apply in_app_or in Hin.
        destruct Hin as [Hin | [<- | Hin]].
        -- apply Hbefore. assumption.
        -- apply fgt_true in Hbest. destruct Hbest as (q & z & Hq & _ & _).
           rewrite Hq. apply fgt_false_num. apply Qle_refl.
        -- apply Hafter. assumption.
      * intros t Hin. apply Hbefore. assumption.
Qed.

(** The modelled evaluation only reads the three objects it is given. *)
Lemma model_training_evaluate_reads_inputs (model X y : loc) (t : Q) (s0 s : state) :
  same_inputs model X y s0 s ->
  model_training.evaluate_model_with_threshold model X y t s =
    (fst (model_training.evaluate_model_with_threshold model X y t s0), s).
Proof.
  intros (H1 & H2 & H3).
  unfold model_training.evaluate_model_with_threshold, bind,
    model_training.get_classifier, model_training.get_frame,
    model_training.get_series, lift.
  rewrite H1.
  destruct (heap s0 !! model) as [[c|?|?]|]; try reflexivity.
  rewrite H2.
  destruct (heap s0 !! X) as [[?|X0|?]|]; try reflexivity.
  rewrite H3.
  destruct (heap s0 !! y) as [[?|?|y0]|]; try reflexivity.
  destruct (model_training.predict_proba c X0); reflexivity.
Qed.

Lemma model_training_evaluate_state (model X y : loc) (t : Q) (s : state) :
  snd (model_training.evaluate_model_with_threshold model X y t s) = s.
Proof.
  rewrite (model_training_evaluate_reads_inputs model X y t s s); [reflexivity|].
  repeat split.
Qed.

Lemma demo_recall_metric_at :
  metric_at model_training.evaluate_model_with_threshold model_ref X_ref y_ref
    "recall" [1 # 10; 1 # 2; 9 # 10] demo_state (demo_score "recall").
Proof.
  intros t s Hin Hs.
  rewrite (model_training_evaluate_reads_inputs _ _ _ t demo_state s Hs).
  destruct Hin as [<- | [<- | [<- | []]]];
    (eexists; exists s;
     split; [apply (f_equal (fun o => (o, s))); vm_compute; reflexivity|];
     split; [exact Hs | vm_compute; reflexivity]).
Qed.

Lemma demo_recall_metric_at_high :
  metric_at model_training.evaluate_model_with_threshold model_ref X_ref y_ref
    "recall" [3 # 4; 9 # 10] demo_state (demo_score "recall").
Proof.
  intros t s Hin Hs.
  rewrite (model_training_evaluate_reads_inputs _ _ _ t demo_state s Hs).
  destruct Hin as [<- | [<- | []]];
    (eexists; exists s;
     split; [apply (f_equal (fun o => (o, s))); vm_compute; reflexivity|];
     split; [exact Hs | vm_compute; reflexivity]).
Qed.

Lemma find_best_threshold_maximises_witness :
  metric_at model_training.evaluate_model_with_threshold model_ref X_ref y_ref
    "recall" [1 # 10; 1 # 2; 9 # 10] demo_state (demo_score "recall") /\
  (exists t, In t [1 # 10; 1 # 2; 9 # 10] /\ fgt (demo_score "recall" t) (Fnum 0) = true) /\
  exists (best : Q) (metric_values : list (Q * pyval)) (s' : state),
    find_best_threshold model_training.evaluate_model_with_threshold
      model_ref X_ref y_ref "recall" [1 # 10; 1 # 2; 9 # 10] demo_state =
      (Ret (best, metric_values), s') /\
    In best [1 # 10; 1 # 2; 9 # 10] /\
    exists q : Q, demo_score "recall" best = Fnum q /\
      forall (t : Q) (q' : Q), In t [1 # 10; 1 # 2; 9 # 10] ->
        demo_score "recall" t = Fnum q' -> q' <= q.
Proof.
  split; [exact demo_recall_metric_at|].
  split; [exists (1 # 10); split; [left; reflexivity | vm_compute; reflexivity]|].
  apply (find_best_threshold_maximises model_training.evaluate_model_with_threshold
           model_ref X_ref y_ref "recall" [1 # 10; 1 # 2; 9 # 10] demo_state
           (demo_score "recall") demo_recall_metric_at).
  exists (1 # 10). split; [left; reflexivity | vm_compute; reflexivity].
Defined.

(** C1 as stated fails where every supplied threshold scores 0: with the
    cut-offs 0.75 and 0.9 above both predicted probabilities, the recall is
    0 at each and the function returns 0.5, which was not supplied. *)
Lemma find_best_threshold_outside_list :
  metric_at model_training.evaluate_model_with_threshold model_ref X_ref y_ref
    "recall" [3 # 4; 9 # 10] demo_state (demo_score "recall") /\
  exists (metric_values : list (Q * pyval)) (s' : state),
    find_best_threshold model_training.evaluate_model_with_threshold
      model_ref X_ref y_ref "recall" [3 # 4; 9 # 10] demo_state =
      (Ret (1 # 2, metric_values), s') /\
    ~ In (1 # 2) [3 # 4; 9 # 10].
Proof.
  split; [exact demo_recall_metric_at_high|].
  eexists. eexists. split; [vm_compute; reflexivity|].
  intros [H | [H | []]]; discriminate.
Qed.

Lemma find_best_threshold_default_and_ties_witness :
  metric_at model_training.evaluate_model_with_threshold model_ref X_ref y_ref
    "recall" [1 # 10; 1 # 2; 9 # 10] demo_state (demo_score "recall") /\
  (exists t, In t [1 # 10; 1 # 2; 9 # 10] /\ fgt (demo_score "recall" t) (Fnum 0) = true) /\
  exists (best : Q) (before after : list Q)
         (metric_values : list (Q * pyval)) (s' : state),
    find_best_threshold model_training.evaluate_model_with_threshold
      model_ref X_ref y_ref "recall" [1 # 10; 1 # 2; 9 # 10] demo_state =
      (Ret (best, metric_values), s') /\
    [1 # 10; 1 # 2; 9 # 10] = before ++ best :: after /\
    fgt (demo_score "recall" best) (Fnum 0) = true /\
    (forall t, In t [1 # 10; 1 # 2; 9 # 10] ->
       fgt (demo_score "recall" t) (demo_score "recall" best) = false) /\
    (forall t, In t before ->
       ~ same_float (demo_score "recall" t) (demo_score "recall" best)).
Proof.
  split; [exact demo_recall_metric_at|].
  assert (Hpos : exists t, In t [1 # 10; 1 # 2; 9 # 10] /\
                           fgt (demo_score "recall" t) (Fnum 0) = true).
  { exists (1 # 10). split; [left; reflexivity | vm_compute; reflexivity]. }
  split; [exact Hpos|].
  exact (proj2 (find_best_threshold_default_and_ties
                  model_training.evaluate_model_with_threshold
                  model_ref X_ref y_ref "recall" [1 # 10; 1 # 2; 9 # 10] demo_state
                  (demo_score "recall") demo_recall_metric_at) Hpos).
Defined.

(* ===================================================================== *)
(** * Exceptions and effects of the sweep *)
(* ===================================================================== *)

Section SweepEffects.

Variable helper : loc -> loc -> loc -> Q -> M (gmap string pyval).
Variables model X y : loc.
Variable metric : string.

Lemma unchanged_refl (L : list loc) (s : state) : unchanged L s s.
Proof. intros l _. reflexivity. Qed.

Lemma unchanged_trans (L : list loc) (s1 s2 s3 : state) :
  unchanged L s1 s2 -> unchanged L s2 s3 -> unchanged L s1 s3.
Proof.
  intros H12 H23 l Hl. rewrite (H23 l Hl). apply H12. assumption.
Qed.

(** The loop over a concatenation: the second part starts from what the
    first part returned, unless the first part raised. *)
Lemma loop_app (before after : list Q) :
  forall (bt : Q) (bv : pyval) (mvs : list (Q * pyval)) (s : state),
    find_best_threshold_loop helper model X y metric (before ++ after) bt bv mvs s =
    match find_best_threshold_loop helper model X y metric before bt bv mvs s with
    | (Ret (bt', bv', mvs'), s1) =>
        find_best_threshold_loop helper model X y metric after bt' bv' mvs' s1
    | (Raise e, s1) => (Raise e, s1)
    end.
Proof.
  induction before as [|t rest IH]; intros bt bv mvs s.
  - reflexivity.
  - cbn [app find_best_threshold_loop]. unfold bind, lift.
    destruct (helper model X y t s) as [[d|e] s1]; [|reflexivity].
    destruct (dict_getitem d metric) as [v|e]; [|reflexivity].
    destruct (py_gt v bv) as [[|]|e]; [apply IH | apply IH | reflexivity].
Qed.

(** The loop changes the state only through the evaluations it calls. *)
Lemma loop_unchanged (L : list loc) :
  (forall t s, unchanged L s (snd (helper model X y t s))) ->
  forall (thresholds : list Q) (bt : Q) (bv : pyval) (mvs : list (Q * pyval)) (s : state),
    unchanged L s
      (snd (find_best_threshold_loop helper model X y metric thresholds bt bv mvs s)).
Proof.
  intros Hframe. induction thresholds as [|t rest IH]; intros bt bv mvs s.
  - apply unchanged_refl.
  - cbn [find_best_threshold_loop]. unfold bind, lift.
    pose proof (Hframe t s) as Ht.
    destruct (helper model X y t s) as [[d|e] s1]; cbn [snd] in Ht; [|exact Ht].
    destruct (dict_getitem d metric) as [v|e]; [|exact Ht].
    destruct (py_gt v bv) as [[|]|e]; [| |exact Ht];
      (eapply unchanged_trans; [exact Ht | apply IH]).
Qed.

Lemma find_best_threshold_unchanged (L : list loc) :
  (forall t s, unchanged L s (snd (helper model X y t s))) ->
  forall (thresholds : list Q) (s : state),
    unchanged L s (snd (find_best_threshold helper model X y metric thresholds s)).
Proof.
  intros Hframe thresholds s. unfold find_best_threshold, bind.
  pose proof (loop_unchanged L Hframe thresholds (1 # 2) (PFloat (Fnum 0)) [] s) as Hl.
  destruct (find_best_threshold_loop helper model X y metric thresholds
              (1 # 2) (PFloat (Fnum 0)) [] s) as [[[[bt bv] mvs]|e] s1];
    cbn [snd] in Hl |- *; exact Hl.
Qed.

Lemma params_unchanged (L : list loc) :
  (forall t s, unchanged L s (snd (helper model X y t s))) ->
  forall (model_name training_split : string) (threshold : option Q) (s : state),
    unchanged L s
      (snd (evaluate_model_with_threshold_params helper model_name model X y
              training_split metric threshold s)).
Proof.
  intros Hframe model_name training_split threshold s.
  unfold evaluate_model_with_threshold_params.
  destruct (py_truthy threshold); cbn [negb].
  - unfold bind, ret. pose proof (Hframe (default 0 threshold) s) as Ht.
    destruct (helper model X y (default 0 threshold) s) as [[d|e] s1]; exact Ht.
  - unfold bind at 1. unfold bind at 1.
    pose proof (find_best_threshold_unchanged L Hframe default_thresholds s) as Hs.
    destruct (find_best_threshold helper model X y metric default_thresholds s)
      as [[found|e] s1]; cbn [snd] in Hs; [|exact Hs].
    unfold ret, bind. pose proof (Hframe (fst found) s1) as Ht.
    destruct (helper model X y (fst found) s1) as [[d|e] s2]; cbn [snd] in Ht |- *;
      (eapply unchanged_trans; [exact Hs | exact Ht]).
Qed.

End SweepEffects.

Section SweepRaises.

Variable helper : loc -> loc -> loc -> Q -> M (gmap string pyval).
Variables model X y : loc.
Variable metric : string.

(** The best value the loop keeps stays a float: a string never wins the
    comparison against a float, it makes it raise. *)
Lemma loop_best_is_float (thresholds : list Q) :
  forall (bt : Q) (f : pyfloat) (mvs : list (Q * pyval)) (s : state)
         (bt' : Q) (bv' : pyval) (mvs' : list (Q * pyval)) (s' : state),
    find_best_threshold_loop helper model X y metric thresholds bt (PFloat f) mvs s
      = (Ret (bt', bv', mvs'), s') ->
    exists f' : pyfloat, bv' = PFloat f'.
Proof.
  induction thresholds as [|t rest IH]; intros bt f mvs s bt' bv' mvs' s' Hrun.
  - injection Hrun as _ <- _ _. exists f. reflexivity.
  - cbn [find_best_threshold_loop] in Hrun. unfold bind, lift in Hrun.
    destruct (helper model X y t s) as [[d|e] s1]; [|discriminate].
    destruct (dict_getitem d metric) as [[x|w]|e]; [| discriminate | discriminate].
    cbn [py_gt] in Hrun.
    destruct (fgt x f); exact (IH _ _ _ _ _ _ _ _ Hrun).
Qed.

(** One pass of the loop body that fails, at the three places it can:
    the evaluation, the subscript, the comparison. *)
Lemma loop_step_raises (t : Q) (rest : list Q) (bt : Q) (f : pyfloat)
    (mvs : list (Q * pyval)) (s : state) :
  (forall e s2, helper model X y t s = (Raise e, s2) ->
     find_best_threshold_loop helper model X y metric (t :: rest) bt (PFloat f) mvs s
       = (Raise e, s2)) /\
  (forall d s2, helper model X y t s = (Ret d, s2) -> d !! metric = None ->
     find_best_threshold_loop helper model X y metric (t :: rest) bt (PFloat f) mvs s
       = (Raise (KeyError metric), s2)) /\
  (forall d s2 w, helper model X y t s = (Ret d, s2) -> d !! metric = Some (PStr w) ->
     exists msg : string,
       find_best_threshold_loop helper model X y metric (t :: rest) bt (PFloat f) mvs s
         = (Raise (TypeError msg), s2)).
Proof.
  split; [|split].
  - intros e s2 Hcall. cbn [find_best_threshold_loop]. unfold bind.
    rewrite Hcall. reflexivity.
  - intros d s2 Hcall Hnone. cbn [find_best_threshold_loop]. unfold bind, lift.
    rewrite Hcall. unfold dict_getitem. rewrite Hnone. reflexivity.
  - intros d s2 w Hcall Hstr. cbn [find_best_threshold_loop]. unfold bind, lift.
    rewrite Hcall. unfold dict_getitem. rewrite Hstr. cbn [py_gt].
    eexists. reflexivity.
Qed.

(** A raise of the loop, traced back: the thresholds before some [t]
    were swept without a failure, and the pass at [t] failed at one of
    its three places, leaving the exception and the state of the raise. *)
Lemma loop_raise_split (thresholds : list Q) :
  forall (bt : Q) (f : pyfloat) (mvs : list (Q * pyval)) (s : state) (e : exn) (s' : state),
    find_best_threshold_loop helper model X y metric thresholds bt (PFloat f) mvs s
      = (Raise e, s') ->
    exists (before : list Q) (t : Q) (after : list Q)
           (acc : Q * pyval * list (Q * pyval)) (s1 : state),
      thresholds = before ++ t :: after /\
      find_best_threshold_loop helper model X y metric before bt (PFloat f) mvs s
        = (Ret acc, s1) /\
      (helper model X y t s1 = (Raise e, s') \/
       exists d : gmap string pyval, helper model X y t s1 = (Ret d, s') /\
         (d !! metric = None /\ e = KeyError metric \/
          exists (w msg : string), d !! metric = Some (PStr w) /\ e = TypeError msg)).
Proof.
  induction thresholds as [|t rest IH]; intros bt f mvs s e s' Hrun.
  - discriminate.
  - cbn [find_best_threshold_loop] in Hrun. unfold bind, lift in Hrun.
    destruct (helper model X y t s) as [[d|e0] s1] eqn:Hcall.
    + unfold dict_getitem in Hrun.
      destruct (d !! metric) as [[x|w]|] eqn:Hget.
      * cbn [py_gt] in Hrun.
        assert (Hnext : exists bt1 f1,
                  find_best_threshold_loop helper model X y metric [t] bt (PFloat f) mvs s
                    = (Ret (bt1, PFloat f1, mvs ++ [(t, PFloat x)]), s1) /\
                  find_best_threshold_loop helper model X y metric rest
                    bt1 (PFloat f1) (mvs ++ [(t, PFloat x)]) s1 = (Raise e, s')).
        { cbn [find_best_threshold_loop]. unfold bind, lift, ret, dict_getitem.
          rewrite Hcall, Hget. cbn [py_gt].
          destruct (fgt x f); eexists; eexists; (split; [reflexivity | exact Hrun]). }
        destruct Hnext as (bt1 & f1 & Hone & Hrest).
        destruct (IH _ _ _ _ _ _ Hrest) as (before & u & after & acc & s2 & -> & Hbefore & Hsite).
        exists (t :: before), u, after, acc, s2. split; [reflexivity|]. split; [|exact Hsite].
        change (t :: before) with ([t] ++ before).
        rewrite (loop_app helper model X y metric [t] before), Hone. exact Hbefore.
      * cbn [py_gt] in Hrun. injection Hrun as <- <-.
        exists [], t, rest, (bt, PFloat f, mvs), s. split; [reflexivity|].
        split; [reflexivity|]. right. exists d. split; [exact Hcall|].
        right. exists w. eexists. split; [exact Hget | reflexivity].
      * injection Hrun as <- <-.
        exists [], t, rest, (bt, PFloat f, mvs), s. split; [reflexivity|].
        split; [reflexivity|]. right. exists d. split; [exact Hcall|].
        left. split; [exact Hget | reflexivity].
    + injection Hrun as <- <-.
      exists [], t, rest, (bt, PFloat f, mvs), s. split; [reflexivity|].
      split; [reflexivity|]. left. exact Hcall.
Qed.

(** A raise of the loop is the outcome of [find_best_threshold]: the
    line is not printed. *)
Lemma find_best_threshold_raises (thresholds : list Q) (s : state) (e : exn) (s' : state) :
  find_best_threshold helper model X y metric thresholds s = (Raise e, s') <->
  find_best_threshold_loop helper model X y metric thresholds
    (1 # 2) (PFloat (Fnum 0)) [] s = (Raise e, s').
Proof.
  unfold find_best_threshold, bind.
  destruct (find_best_threshold_loop helper model X y metric thresholds
              (1 # 2) (PFloat (Fnum 0)) [] s) as [[[[bt bv] mvs]|e0] s1].
  - split; discriminate.
  - split; intros H; injection H as -> ->; reflexivity.
Qed.

End SweepRaises.

(** The four calls of the dict display, whatever the scorers: the first
    that raises decides. *)
Lemma evaluate_model_metrics_body_raises
    (precision_score recall_score f1_score : list bool -> list bool -> Q -> outcome pyfloat)
    (accuracy_score : list bool -> list bool -> outcome pyfloat)
    (y_true y_pred : list bool) (e : exn) :
  evaluate_model_metrics_body precision_score recall_score f1_score accuracy_score
    y_true y_pred = Raise e <->
  precision_score y_true y_pred 0 = Raise e \/
  (exists p, precision_score y_true y_pred 0 = Ret p /\
     recall_score y_true y_pred 0 = Raise e) \/
  (exists p r, precision_score y_true y_pred 0 = Ret p /\
     recall_score y_true y_pred 0 = Ret r /\
     f1_score y_true y_pred 0 = Raise e) \/
  (exists p r f, precision_score y_true y_pred 0 = Ret p /\
     recall_score y_true y_pred 0 = Ret r /\
     f1_score y_true y_pred 0 = Ret f /\
     accuracy_score y_true y_pred = Raise e).
Proof.
  unfold evaluate_model_metrics_body.
  destruct (precision_score y_true y_pred 0) as [p|e1]; cbn [obind].
  2:{ split; [intros H; left; (injection H as ->; reflexivity)|].
      intros [H | [(p & H & _) | [(p & r & H & _) | (p & r & f & H & _)]]];
        [(injection H as ->; reflexivity) | discriminate | discriminate | discriminate]. }
  destruct (recall_score y_true y_pred 0) as [r|e2]; cbn [obind].
  2:{ split; [intros H; right; left; exists p; split; [reflexivity | (injection H as ->; reflexivity)]|].
      intros [H | [(p' & _ & H) | [(p' & r & _ & H & _) | (p' & r & f & _ & H & _)]]];
        [discriminate | (injection H as ->; reflexivity) | discriminate | discriminate]. }
  destruct (f1_score y_true y_pred 0) as [f|e3]; cbn [obind].
  2:{ split.
      - intros H. right; right; left. exists p, r.
        split; [reflexivity|]. split; [reflexivity | (injection H as ->; reflexivity)].
      - intros [H | [(p' & _ & H) | [(p' & r' & _ & _ & H) | (p' & r' & f & _ & _ & H & _)]]];
          [discriminate | discriminate | (injection H as ->; reflexivity) | discriminate]. }
  destruct (accuracy_score y_true y_pred) as [a|e4]; cbn [obind].
  - split; [discriminate|].
    intros [H | [(p' & _ & H) | [(p' & r' & _ & _ & H) | (p' & r' & f' & _ & _ & _ & H)]]];
      discriminate.
  - split.
    + intros H. right; right; right. exists p, r, f.
      split; [reflexivity|]. split; [reflexivity|]. split; [reflexivity | (injection H as ->; reflexivity)].
    + intros [H | [(p' & _ & H) | [(p' & r' & _ & _ & H) | (p' & r' & f' & _ & _ & _ & H)]]];
        [discriminate | discriminate | discriminate | (injection H as ->; reflexivity)].
Qed.

(** C6.  None of [find_best_threshold],
    [evaluate_model_with_threshold_params] and [evaluate_model_metrics]
    catches, retries or translates anything.
    The sweep: once the thresholds before [t] are swept, a failure at [t]
    (the evaluation raising, the metrics dict lacking the metric:
    [KeyError], the metric's value being a string: [TypeError] from the
    comparison) is the outcome of the call, with the state the failure
    left: no later threshold is evaluated and nothing is printed.
    Conversely every exception that leaves the sweep is one of these,
    unchanged.
    The labelled evaluation: a raise of the search, or of the evaluation at
    the settled threshold, is the outcome of the call, with its state; and
    it raises nothing else.
    [evaluate_model_metrics]: whatever the four scorers are, the first of
    them to raise, in the order of the dict display, decides the outcome,
    and nothing else is raised. *)
Theorem exceptions_propagate
    (helper : loc -> loc -> loc -> Q -> M (gmap string pyval))
    (model X y : loc) (metric : string) :
  (forall (before : list Q) (t : Q) (after : list Q) (s : state)
          (acc : Q * pyval * list (Q * pyval)) (s1 : state),
     find_best_threshold_loop helper model X y metric before
       (1 # 2) (PFloat (Fnum 0)) [] s = (Ret acc, s1) ->
     (forall (e : exn) (s2 : state),
        helper model X y t s1 = (Raise e, s2) ->
        find_best_threshold helper model X y metric (before ++ t :: after) s
          = (Raise e, s2)) /\
     (forall (d : gmap string pyval) (s2 : state),
        helper model X y t s1 = (Ret d, s2) -> d !! metric = None ->
        find_best_threshold helper model X y metric (before ++ t :: after) s
          = (Raise (KeyError metric), s2)) /\
     (forall (d : gmap string pyval) (s2 : state) (w : string),
        helper model X y t s1 = (Ret d, s2) -> d !! metric = Some (PStr w) ->
        exists msg : string,
          find_best_threshold helper model X y metric (before ++ t :: after) s
            = (Raise (TypeError msg), s2)))
  /\
  (forall (thresholds : list Q) (s : state) (e : exn) (s' : state),
     find_best_threshold helper model X y metric thresholds s = (Raise e, s') ->
     exists (before : list Q) (t : Q) (after : list Q)
            (acc : Q * pyval * list (Q * pyval)) (s1 : state),
       thresholds = before ++ t :: after /\
       find_best_threshold_loop helper model X y metric before
         (1 # 2) (PFloat (Fnum 0)) [] s = (Ret acc, s1) /\
       (helper model X y t s1 = (Raise e, s') \/
        exists d : gmap string pyval, helper model X y t s1 = (Ret d, s') /\
          (d !! metric = None /\ e = KeyError metric \/
           exists (w msg : string), d !! metric = Some (PStr w) /\ e = TypeError msg)))
  /\
  (forall (model_name training_split : string) (threshold : option Q)
          (s : state) (e : exn) (s' : state),
     evaluate_model_with_threshold_params helper model_name model X y
       training_split metric threshold s = (Raise e, s')
     <->
     (py_truthy threshold = true /\
      helper model X y (default 0 threshold) s = (Raise e, s')) \/
     (py_truthy threshold = false /\
      (find_best_threshold helper model X y metric default_thresholds s = (Raise e, s') \/
       exists (found : Q * list (Q * pyval)) (s1 : state),
         find_best_threshold helper model X y metric default_thresholds s
           = (Ret found, s1) /\
         helper model X y (fst found) s1 = (Raise e, s'))))
  /\
  (forall (precision_score recall_score f1_score :
             list bool -> list bool -> Q -> outcome pyfloat)
          (accuracy_score : list bool -> list bool -> outcome pyfloat)
          (y_true y_pred : list bool) (e : exn),
     evaluate_model_metrics_body precision_score recall_score f1_score accuracy_score
       y_true y_pred = Raise e
     <->
     precision_score y_true y_pred 0 = Raise e \/
     (exists p, precision_score y_true y_pred 0 = Ret p /\
        recall_score y_true y_pred 0 = Raise e) \/
     (exists p r, precision_score y_true y_pred 0 = Ret p /\
        recall_score y_true y_pred 0 = Ret r /\
        f1_score y_true y_pred 0 = Raise e) \/
     (exists p r f, precision_score y_true y_pred 0 = Ret p /\
        recall_score y_true y_pred 0 = Ret r /\
        f1_score y_true y_pred 0 = Ret f /\
        accuracy_score y_true y_pred = Raise e))
  /\
  (forall y_true y_pred : list bool,
     evaluate_model_metrics y_true y_pred =
     evaluate_model_metrics_body sklearn.precision_score sklearn.recall_score
       sklearn.f1_score sklearn.accuracy_score y_true y_pred).
Proof.
  split; [|split; [|split; [|split]]].
  - intros before t after s [[bt bv] mvs] s1 Hbefore.
    destruct (loop_best_is_float helper model X y metric before _ _ _ _ _ _ _ _ Hbefore)
      as [f ->].
    destruct (loop_step_raises helper model X y metric t after bt f mvs s1)
      as (Hcall & Hkey & Hcmp).
    assert (Hsplit : forall (e : exn) (s2 : state),
              find_best_threshold_loop helper model X y metric (t :: after)
                bt (PFloat f) mvs s1 = (Raise e, s2) ->
              find_best_threshold helper model X y metric (before ++ t :: after) s
                = (Raise e, s2)).
    { intros e s2 Hstep. apply find_best_threshold_raises.
      rewrite (loop_app helper model X y metric before (t :: after)), Hbefore.
      exact Hstep. }
    split; [|split].
    + intros e s2 H. apply Hsplit, Hcall. exact H.
    + intros d s2 H Hnone. apply Hsplit. exact (Hkey d s2 H Hnone).
    + intros d s2 w H Hstr. destruct (Hcmp d s2 w H Hstr) as [msg Hmsg].
      exists msg. apply Hsplit. exact Hmsg.
  - intros thresholds s e s' Hrun.
    apply find_best_threshold_raises in Hrun.
    exact (loop_raise_split helper model X y metric thresholds _ _ _ _ _ _ Hrun).
  - intros model_name training_split threshold s e s'.
    unfold evaluate_model_with_threshold_params.
    destruct (py_truthy threshold); cbn [negb].
    + unfold bind, ret.
      destruct (helper model X y (default 0 threshold) s) as [[d|e0] s1].
      * split; [discriminate|]. intros [[_ H] | [H _]]; discriminate.
      * split.
        -- intros H. left. split; [reflexivity | (injection H as -> ->; reflexivity)].
        -- intros [[_ H] | [H _]]; [(injection H as -> ->; reflexivity) | discriminate].
    + unfold bind at 1. unfold bind at 1.
      destruct (find_best_threshold helper model X y metric default_thresholds s)
        as [[found|e0] s1].
      * unfold ret, bind.
        destruct (helper model X y (fst found) s1) as [[d|e1] s2] eqn:Hcall.
        -- split; [discriminate|].
           intros [[H _] | [_ [H | (found' & s1' & Hfound & H)]]];
             [discriminate | discriminate |].
           injection Hfound as <- <-. rewrite Hcall in H. discriminate.
        -- split.
           ++ intros H. right. split; [reflexivity|]. right.
              exists found, s1. split; [reflexivity|]. rewrite Hcall. (injection H as -> ->; reflexivity).
           ++ intros [[H _] | [_ [H | (found' & s1' & Hfound & H)]]];
                [discriminate | discriminate |].
              injection Hfound as <- <-. rewrite Hcall in H. (injection H as -> ->; reflexivity).
      * split.
        -- intros H. right. split; [reflexivity|]. left. (injection H as -> ->; reflexivity).
        -- intros [[H _] | [_ [H | (found' & s1' & Hfound & _)]]];
             [discriminate | (injection H as -> ->; reflexivity) | discriminate].
  - intros precision_score recall_score f1_score accuracy_score y_true y_pred e.
    apply evaluate_model_metrics_body_raises.
  - intros y_true y_pred. reflexivity.
Qed.

(** The modelled evaluation on the demo globals returns a dict that has
    no entry ["f1"]. *)
Lemma demo_evaluate_lacks_f1 (t : Q) :
  exists d : gmap string pyval,
    model_training.evaluate_model_with_threshold model_ref X_ref y_ref t demo_state
      = (Ret d, demo_state) /\
    d !! "f1" = None.
Proof.
  pose proof (evaluate_model_metrics_value (map snd demo_y)
                (map (fun p => negb (Qle_bool p t)) [7 # 10; 1 # 5]) eq_refl) as Hd.
  cbv zeta in Hd.
  eexists. split; [exact (f_equal (fun o => (o, demo_state)) Hd)|].
  rewrite !lookup_insert_ne by discriminate. apply lookup_empty.
Qed.

(** The labelled evaluation returns a dict whose ["split"] is a string. *)
Lemma labelled_evaluation_split (t : Q) :
  exists d : gmap string pyval,
    labelled_evaluation model_ref X_ref y_ref t demo_state = (Ret d, demo_state) /\
    d !! "split" = Some (PStr "validation").
Proof.
  destruct (demo_evaluate_lacks_f1 t) as (d0 & Hd0 & _).
  eexists. split.
  - unfold labelled_evaluation, evaluate_at_threshold, bind, ret.
    rewrite Hd0. reflexivity.
  - apply lookup_insert_eq.
Qed.

(** Four failures and what becomes of them.  An unfitted estimator: the
    library's [NotFittedError] leaves the sweep and the labelled
    evaluation as raised.  A metric the dict does not hold: [KeyError]
    at the first threshold.  A metric whose value is a string:
    [TypeError].  A recall scorer that raises after the precision scorer
    returned: its exception is the outcome of the dict display. *)
Lemma exceptions_propagate_witness :
  find_best_threshold model_training.evaluate_model_with_threshold
    model_ref X_ref y_ref default_metric ([] ++ (1 # 10) :: [1 # 2]) untrained_state
    = (Raise NotFittedError, untrained_state) /\
  find_best_threshold model_training.evaluate_model_with_threshold
    model_ref X_ref y_ref "f1" ([] ++ (1 # 10) :: [1 # 2]) demo_state
    = (Raise (KeyError "f1"), demo_state) /\
  (exists msg : string,
     find_best_threshold labelled_evaluation
       model_ref X_ref y_ref "split" ([] ++ (1 # 10) :: [1 # 2]) demo_state
       = (Raise (TypeError msg), demo_state)) /\
  evaluate_model_with_threshold_params model_training.evaluate_model_with_threshold
    "decision_tree_pruned" model_ref X_ref y_ref default_training_split default_metric
    (Some (1 # 2)) untrained_state
    = (Raise NotFittedError, untrained_state) /\
  evaluate_model_metrics_body sklearn.precision_score (failing_scorer "recall")
    sklearn.f1_score sklearn.accuracy_score [true] [true]
    = Raise (ValueError "recall").
Proof.
  pose proof (exceptions_propagate model_training.evaluate_model_with_threshold
                model_ref X_ref y_ref default_metric) as (Hsweep & _ & Hparams & Hbody & _).
  pose proof (exceptions_propagate model_training.evaluate_model_with_threshold
                model_ref X_ref y_ref "f1") as (Hf1 & _).
  pose proof (exceptions_propagate labelled_evaluation
                model_ref X_ref y_ref "split") as (Hstr & _).
  split; [|split; [|split; [|split]]].
  - destruct (Hsweep [] (1 # 10) [1 # 2] untrained_state
                (1 # 2, PFloat (Fnum 0), []) untrained_state eq_refl) as (Hcall & _).
    apply Hcall. vm_compute. reflexivity.
  - destruct (demo_evaluate_lacks_f1 (1 # 10)) as (d & Hrun & Hnone).
    destruct (Hf1 [] (1 # 10) [1 # 2] demo_state
                (1 # 2, PFloat (Fnum 0), []) demo_state eq_refl) as (_ & Hkey & _).
    exact (Hkey d demo_state Hrun Hnone).
  - destruct (labelled_evaluation_split (1 # 10)) as (d & Hrun & Hval).
    destruct (Hstr [] (1 # 10) [1 # 2] demo_state
                (1 # 2, PFloat (Fnum 0), []) demo_state eq_refl) as (_ & _ & Hcmp).
    exact (Hcmp d demo_state "validation" Hrun Hval).
  - apply Hparams. left. split; [reflexivity | vm_compute; reflexivity].
  - apply Hbody. right. left. eexists. split; [vm_compute; reflexivity | reflexivity].
Defined.

(** C7.  Evaluation leaves its inputs alone: whatever objects the
    evaluation at one threshold leaves unchanged (the model artifact, the
    feature matrix, the label vector, any split data set), so do
    [find_best_threshold] and [evaluate_model_with_threshold_params], whether
    they return or raise: they write to the cell's output and to dicts of
    their own only. *)
Theorem evaluation_leaves_inputs_unchanged
    (helper : loc -> loc -> loc -> Q -> M (gmap string pyval))
    (model X y : loc) (L : list loc) :
  (forall (t : Q) (s : state), unchanged L s (snd (helper model X y t s))) ->
  forall (metric : string) (s : state),
    (forall thresholds : list Q,
       unchanged L s (snd (find_best_threshold helper model X y metric thresholds s))) /\
    (forall (model_name training_split : string) (threshold : option Q),
       unchanged L s
         (snd (evaluate_model_with_threshold_params helper model_name model X y
                 training_split metric threshold s))).
Proof.
  intros Hframe metric s. split.
  - intros thresholds. apply find_best_threshold_unchanged. exact Hframe.
  - intros model_name training_split threshold. apply params_unchanged. exact Hframe.
Qed.

Lemma evaluation_leaves_inputs_unchanged_witness :
  (forall (t : Q) (s : state),
     unchanged [model_ref; X_ref; y_ref] s
       (snd (model_training.evaluate_model_with_threshold model_ref X_ref y_ref t s))) /\
  unchanged [model_ref; X_ref; y_ref] demo_state
    (snd (find_best_threshold model_training.evaluate_model_with_threshold
            model_ref X_ref y_ref default_metric default_thresholds demo_state)) /\
  unchanged [model_ref; X_ref; y_ref] demo_state
    (snd (evaluate_model_with_threshold_params model_training.evaluate_model_with_threshold
            "gdbt_default" model_ref X_ref y_ref default_training_split default_metric
            None demo_state)).
Proof.
  assert (Hframe : forall (t : Q) (s : state),
            unchanged [model_ref; X_ref; y_ref] s
              (snd (model_training.evaluate_model_with_threshold model_ref X_ref y_ref t s))).
  { intros t s. rewrite model_training_evaluate_state. intros l _. reflexivity. }
  split; [exact Hframe|].
  destruct (evaluation_leaves_inputs_unchanged
              model_training.evaluate_model_with_threshold model_ref X_ref y_ref
              [model_ref; X_ref; y_ref] Hframe default_metric demo_state) as [Hsweep Hparams].
  split; [apply Hsweep | apply Hparams].
Defined.

(** C9.  A threshold of 0.0 is treated as no threshold: the call does what
    the call with [None] does, namely run the search over the default grid
    and evaluate at the threshold the search returns, so the cut-off 0.0 is
    not used as given; every other threshold is used as given. *)
Theorem zero_threshold_is_no_threshold
    (helper : loc -> loc -> loc -> Q -> M (gmap string pyval))
    (model_name : string) (model X y : loc) (training_split metric : string)
    (t : Q) (s : state) :
  (t == 0 ->
   evaluate_model_with_threshold_params helper model_name model X y
     training_split metric (Some t) s =
   evaluate_model_with_threshold_params helper model_name model X y
     training_split metric None s
   /\
   evaluate_model_with_threshold_params helper model_name model X y
     training_split metric (Some t) s =
   (found <- find_best_threshold helper model X y metric default_thresholds ;;
    evaluate_at_threshold helper model_name model X y training_split (fst found)) s)
  /\
  (~ t == 0 ->
   evaluate_model_with_threshold_params helper model_name model X y
     training_split metric (Some t) s =
   evaluate_at_threshold helper model_name model X y training_split t s).
Proof.
  split.
  - intros Hzero. apply Qeq_bool_iff in Hzero.
    unfold evaluate_model_with_threshold_params, py_truthy. rewrite Hzero. cbn [negb].
    split; [reflexivity|].
    unfold evaluate_at_threshold, bind, ret.
    destruct (find_best_threshold helper model X y metric default_thresholds s)
      as [[found|e] s1]; reflexivity.
  - intros Hnonzero.
    unfold evaluate_model_with_threshold_params, py_truthy.
    destruct (Qeq_bool t 0) eqn:E.
    + apply Qeq_bool_iff in E. contradiction.
    + reflexivity.
Qed.

Lemma zero_threshold_is_no_threshold_witness :
  (0 # 1 == 0 /\
   evaluate_model_with_threshold_params model_training.evaluate_model_with_threshold
     "gdbt_default" model_ref X_ref y_ref default_training_split default_metric
     (Some (0 # 1)) demo_state =
   evaluate_model_with_threshold_params model_training.evaluate_model_with_threshold
     "gdbt_default" model_ref X_ref y_ref default_training_split default_metric
     None demo_state) /\
  (~ 1 # 2 == 0 /\
   evaluate_model_with_threshold_params model_training.evaluate_model_with_threshold
     "gdbt_default" model_ref X_ref y_ref default_training_split default_metric
     (Some (1 # 2)) demo_state =
   evaluate_at_threshold model_training.evaluate_model_with_threshold
     "gdbt_default" model_ref X_ref y_ref default_training_split (1 # 2) demo_state).
Proof.
  split.
  - split; [reflexivity|].
    apply (proj1 (zero_threshold_is_no_threshold
                    model_training.evaluate_model_with_threshold
                    "gdbt_default" model_ref X_ref y_ref default_training_split
                    default_metric (0 # 1) demo_state)).
    reflexivity.
  - split; [discriminate|].
    apply (proj2 (zero_threshold_is_no_threshold
                    model_training.evaluate_model_with_threshold
                    "gdbt_default" model_ref X_ref y_ref default_training_split
                    default_metric (1 # 2) demo_state)).
    discriminate.
Defined.

(* ===================================================================== *)
(** * Further properties of [evaluate_model_metrics] *)
(* ===================================================================== *)

Lemma evaluate_model_metrics_mismatch (y y_pred : list bool) :
  length y <> length y_pred ->
  evaluate_model_metrics y y_pred =
    Raise (ValueError (sklearn.inconsistent_msg [length y; length y_pred])).
Proof.
  intros H. unfold evaluate_model_metrics, sklearn.precision_score.
  rewrite (check_consistent_length_raises y y_pred H). reflexivity.
Qed.

(** The dict in the library's own sums. *)
Lemma evaluate_model_metrics_sums (y y_pred : list bool) :
  length y = length y_pred ->
  evaluate_model_metrics y y_pred =
    Ret (<["precision" := PFloat (Fnum (sklearn._prf_divide (sklearn.tp_sum y y_pred)
                                          (sklearn.pred_sum y_pred) 0))]>
         (<["recall" := PFloat (Fnum (sklearn._prf_divide (sklearn.tp_sum y y_pred)
                                        (sklearn.true_sum y) 0))]>
          (<["f1_score" := PFloat (Fnum (sklearn._prf_divide (2 * sklearn.tp_sum y y_pred)
                                           (sklearn.true_sum y + sklearn.pred_sum y_pred) 0))]>
           (<["accuracy" :=
                PFloat (if Nat.eqb (length y) 0 then Fnan
                        else Fnum (sklearn.ratio
                                     (sklearn.count_true
                                        (map (fun p => Bool.eqb (fst p) (snd p))
                                             (combine y y_pred)))
                                     (length y)))]> ∅)))).
Proof.
  intros Hlen.
  unfold evaluate_model_metrics, sklearn.precision_score, sklearn.recall_score,
    sklearn.f1_score, sklearn.accuracy_score.
  rewrite (check_consistent_length_ok _ _ Hlen). cbn [obind].
  rewrite length_map, length_combine, <- Hlen, Nat.min_id. reflexivity.
Qed.

(** X2.  A dict returned by [evaluate_model_metrics] has the four keys
    [precision], [recall], [f1_score], [accuracy] and no other: subscripting
    it with anything else raises [KeyError]. *)
Theorem evaluate_model_metrics_keys (y y_pred : list bool) (d : gmap string pyval) :
  evaluate_model_metrics y y_pred = Ret d ->
  dom d = ({["precision"; "recall"; "f1_score"; "accuracy"]} : gset string) /\
  (forall key : string, In key metric_names ->
     exists f : pyfloat, dict_getitem d key = Ret (PFloat f)) /\
  (forall key : string, ~ In key metric_names ->
     dict_getitem d key = Raise (KeyError key)).
Proof.
  intros H.
  destruct (Nat.eq_dec (length y) (length y_pred)) as [Heq | Hne];
    [|rewrite (evaluate_model_metrics_mismatch y y_pred Hne) in H; discriminate].
  rewrite (evaluate_model_metrics_sums y y_pred Heq) in H. injection H as <-.
  split; [|split].
  - rewrite !dom_insert_L, dom_empty_L. set_solver.
  - intros key [<- | [<- | [<- | [<- | []]]]]; eexists; reflexivity.
  - intros key Hkey. unfold dict_getitem.
    rewrite !lookup_insert_ne, lookup_empty; [reflexivity| | | |];
      intros <-; apply Hkey; unfold metric_names; simpl; tauto.
Qed.

Lemma evaluate_model_metrics_keys_witness :
  exists d : gmap string pyval,
    evaluate_model_metrics [true; false] [true; true] = Ret d /\
    dom d = ({["precision"; "recall"; "f1_score"; "accuracy"]} : gset string) /\
    dict_getitem d "f1" = Raise (KeyError "f1").
Proof.
  eexists. split; [vm_compute; reflexivity|].
  destruct (evaluate_model_metrics_keys [true; false] [true; true] _ eq_refl)
    as (Hdom & _ & Hother).
  split; [exact Hdom|]. apply Hother.
  intros [H | [H | [H | [H | []]]]]; discriminate.
Defined.

Lemma tp_sum_swap (y y_pred : list bool) :
  sklearn.tp_sum y_pred y = sklearn.tp_sum y y_pred.
Proof.
  unfold sklearn.tp_sum, sklearn.count_true.
  revert y_pred. induction y as [|a y IH]; intros [|b y_pred]; try reflexivity.
  cbn [combine map List.filter fst snd]. rewrite (Bool.andb_comm b a).
  destruct (a && b); cbn [length]; rewrite IH; reflexivity.
Qed.

Lemma agreements_swap (y y_pred : list bool) :
  sklearn.count_true (map (fun p => Bool.eqb (fst p) (snd p)) (combine y_pred y)) =
  sklearn.count_true (map (fun p => Bool.eqb (fst p) (snd p)) (combine y y_pred)).
Proof.
  unfold sklearn.count_true.
  revert y_pred. induction y as [|a y IH]; intros [|b y_pred]; try reflexivity.
  cbn [combine map List.filter fst snd].
  replace (Bool.eqb b a) with (Bool.eqb a b) by (destruct a, b; reflexivity).
  destruct (Bool.eqb a b); cbn [length]; rewrite IH; reflexivity.
Qed.

(** X3.  Exchanging the label vector and the prediction vector exchanges
    precision and recall and leaves F1 and accuracy as they are. *)
Theorem evaluate_model_metrics_swap (y y_pred : list bool) (d : gmap string pyval) :
  evaluate_model_metrics y y_pred = Ret d ->
  exists d' : gmap string pyval,
    evaluate_model_metrics y_pred y = Ret d' /\
    d' !! "precision" = d !! "recall" /\
    d' !! "recall" = d !! "precision" /\
    d' !! "f1_score" = d !! "f1_score" /\
    d' !! "accuracy" = d !! "accuracy".
Proof.
  intros H.
  destruct (Nat.eq_dec (length y) (length y_pred)) as [Heq | Hne];
    [|rewrite (evaluate_model_metrics_mismatch y y_pred Hne) in H; discriminate].
  rewrite (evaluate_model_metrics_sums y y_pred Heq) in H. injection H as <-.
  rewrite (evaluate_model_metrics_sums y_pred y (eq_sym Heq)).
  eexists. split; [reflexivity|].
  rewrite tp_sum_swap, agreements_swap, <- Heq.
  unfold sklearn.pred_sum, sklearn.true_sum.
  rewrite (Nat.add_comm (sklearn.count_true y_pred) (sklearn.count_true y)).
  repeat split.
Qed.

Lemma evaluate_model_metrics_swap_witness :
  exists d d' : gmap string pyval,
    evaluate_model_metrics [true; false; true; true] [true; true; false; true] = Ret d /\
    evaluate_model_metrics [true; true; false; true] [true; false; true; true] = Ret d' /\
    d' !! "precision" = d !! "recall" /\
    d' !! "recall" = d !! "precision" /\
    d' !! "f1_score" = d !! "f1_score" /\
    d' !! "accuracy" = d !! "accuracy".
Proof.
  eexists.
  destruct (evaluate_model_metrics_swap
              [true; false; true; true] [true; true; false; true] _ eq_refl)
    as (d' & H).
  exists d'. split; [reflexivity | exact H].
Defined.

(** Sums against a constant prediction vector. *)
Lemma sums_against_zeros (y : list bool) :
  sklearn.tp_sum y (np_zeros_like y) = 0%nat /\
  sklearn.pred_sum (np_zeros_like y) = 0%nat /\
  (sklearn.count_true (map (fun p => Bool.eqb (fst p) (snd p)) (combine y (np_zeros_like y)))
   + sklearn.true_sum y = length y)%nat.
Proof.
  unfold sklearn.tp_sum, sklearn.pred_sum, sklearn.true_sum, sklearn.count_true,
    np_zeros_like.
  induction y as [|a y (IH1 & IH2 & IH3)]; [repeat split|].
  cbn [length repeat combine map List.filter fst snd].
  rewrite Bool.andb_false_r. destruct a; cbn [Bool.eqb length]; repeat split; lia.
Qed.

Lemma sums_against_ones (y : list bool) :
  sklearn.tp_sum y (np_ones_like y) = sklearn.true_sum y /\
  sklearn.pred_sum (np_ones_like y) = length y /\
  sklearn.count_true (map (fun p => Bool.eqb (fst p) (snd p)) (combine y (np_ones_like y)))
    = sklearn.true_sum y.
Proof.
  unfold sklearn.tp_sum, sklearn.pred_sum, sklearn.true_sum, sklearn.count_true,
    np_ones_like.
  induction y as [|a y (IH1 & IH2 & IH3)]; [repeat split|].
  cbn [length repeat combine map List.filter fst snd].
  rewrite Bool.andb_true_r. destruct a; cbn [Bool.eqb length]; repeat split; lia.
Qed.

Lemma count_true_le (l : list bool) : (sklearn.count_true l <= length l)%nat.
Proof.
  unfold sklearn.count_true. induction l as [|a l IH]; [reflexivity|].
  cbn [List.filter]. destruct a; cbn [length]; lia.
Qed.

Lemma ratio_zero (n : nat) : sklearn.ratio 0 n == 0.
Proof. rewrite ratio_Qnat. unfold Qnat. simpl. unfold Qdiv. apply Qmult_0_l. Qed.

Lemma ratio_same (n : nat) : (0 < n)%nat -> sklearn.ratio n n == 1.
Proof.
  intros Hn. rewrite ratio_Qnat. apply Qmult_inv_r.
  intros H. apply Qnat_zero_iff in H. lia.
Qed.

Lemma prf_divide_zero (n : nat) : sklearn._prf_divide 0 n 0 == 0.
Proof.
  unfold sklearn._prf_divide. destruct (Nat.eqb n 0); [reflexivity | apply ratio_zero].
Qed.

(** X4.  The always-zeros baseline ([np.zeros_like]): precision, recall
    and F1 are 0 whatever the labels, and the accuracy is the share of
    negative labels. *)
Theorem always_zeros_baseline (y : list bool) :
  y <> [] ->
  exists d : gmap string pyval,
    evaluate_model_metrics y (np_zeros_like y) = Ret d /\
    score_of d "precision" 0 /\
    score_of d "recall" 0 /\
    score_of d "f1_score" 0 /\
    score_of d "accuracy" (Qnat (length y - sklearn.true_sum y) / Qnat (length y)).
Proof.
  intros Hne.
  assert (Hlen : length y = length (np_zeros_like y))
    by (unfold np_zeros_like; rewrite repeat_length; reflexivity).
  rewrite (evaluate_model_metrics_sums y _ Hlen).
  destruct (sums_against_zeros y) as (H1 & H2 & H3).
  rewrite H1, H2.
  assert (Hnz : Nat.eqb (length y) 0 = false).
  { apply Nat.eqb_neq. destruct y; [contradiction | discriminate]. }
  rewrite Hnz.
  eexists. split; [reflexivity|].
  unfold score_of.
  split; [|split; [|split]]; eexists; (split; [reflexivity|]).
  - apply prf_divide_zero.
  - apply prf_divide_zero.
  - apply prf_divide_zero.
  - rewrite ratio_Qnat.
    replace (length y - sklearn.true_sum y)%nat
      with (sklearn.count_true (map (fun p => Bool.eqb (fst p) (snd p))
                                    (combine y (np_zeros_like y)))) by lia.
    reflexivity.
Qed.

Lemma always_zeros_baseline_witness :
  [true; false; false] <> @nil bool /\
  exists d : gmap string pyval,
    evaluate_model_metrics [true; false; false] (np_zeros_like [true; false; false]) = Ret d /\
    score_of d "precision" 0 /\
    score_of d "recall" 0 /\
    score_of d "f1_score" 0 /\
    score_of d "accuracy" (Qnat 2 / Qnat 3).
Proof.
  split; [discriminate|].
  apply (always_zeros_baseline [true; false; false]). discriminate.
Defined.

(** X5.  The always-ones baseline ([np.ones_like]): precision and accuracy
    are both the share of positive labels, and the recall is 1 as soon as
    one label is positive. *)
Theorem always_ones_baseline (y : list bool) :
  y <> [] ->
  exists d : gmap string pyval,
    evaluate_model_metrics y (np_ones_like y) = Ret d /\
    score_of d "precision" (Qnat (sklearn.true_sum y) / Qnat (length y)) /\
    score_of d "accuracy" (Qnat (sklearn.true_sum y) / Qnat (length y)) /\
    (In true y -> score_of d "recall" 1) /\
    (~ In true y -> score_of d "recall" 0).
Proof.
  intros Hne.
  assert (Hlen : length y = length (np_ones_like y))
    by (unfold np_ones_like; rewrite repeat_length; reflexivity).
  rewrite (evaluate_model_metrics_sums y _ Hlen).
  destruct (sums_against_ones y) as (H1 & H2 & H3).
  rewrite H1, H2, H3.
  assert (Hpos : (0 < length y)%nat) by (destruct y; [contradiction | simpl; lia]).
  assert (Hnz : Nat.eqb (length y) 0 = false) by (apply Nat.eqb_neq; lia).
  rewrite Hnz.
  assert (Hin : In true y <-> (0 < sklearn.true_sum y)%nat).
  { unfold sklearn.true_sum, sklearn.count_true. clear.
    induction y as [|a y IH]; [simpl; split; [intros [] | lia]|].
    cbn [List.filter]. destruct a; cbn [length In].
    - split; [lia | intros _; left; reflexivity].
    - rewrite <- IH. split; [intros [H | H]; [discriminate | exact H] | intros H; right; exact H]. }
  eexists. split; [reflexivity|].
  unfold score_of.
  split; [|split; [|split]].
  - eexists. split; [reflexivity|].
    unfold sklearn._prf_divide. rewrite Hnz. rewrite ratio_Qnat. reflexivity.
  - eexists. split; [reflexivity|]. rewrite ratio_Qnat. reflexivity.
  - intros Hy. apply Hin in Hy. eexists. split; [reflexivity|].
    unfold sklearn._prf_divide.
    destruct (Nat.eqb_spec (sklearn.true_sum y) 0) as [Hz | _]; [lia|].
    apply ratio_same. exact Hy.
  - intros Hy. eexists. split; [reflexivity|].
    assert (Hz : sklearn.true_sum y = 0%nat).
    { destruct (Nat.eq_dec (sklearn.true_sum y) 0%nat) as [Hz | Hnz']; [exact Hz|].
      exfalso. apply Hy. apply Hin. lia. }
    rewrite Hz. reflexivity.
Qed.

Lemma always_ones_baseline_witness :
  [true; false; false] <> @nil bool /\
  exists d : gmap string pyval,
    evaluate_model_metrics [true; false; false] (np_ones_like [true; false; false]) = Ret d /\
    score_of d "precision" (Qnat 1 / Qnat 3) /\
    score_of d "accuracy" (Qnat 1 / Qnat 3) /\
    score_of d "recall" 1.
Proof.
  split; [discriminate|].
  destruct (always_ones_baseline [true; false; false]) as (d & Hd & Hp & Ha & Hr & _);
    [discriminate|].
  exists d. split; [exact Hd|]. split; [exact Hp|]. split; [exact Ha|].
  apply Hr. left. reflexivity.
Defined.

Lemma Qnat_le (a b : nat) : Qnat a <= Qnat b <-> (a <= b)%nat.
Proof. unfold Qnat. rewrite <- Zle_Qle. lia. Qed.

Lemma Qnat_mult (a b : nat) : Qnat (a * b) == Qnat a * Qnat b.
Proof. unfold Qnat. rewrite Nat2Z.inj_mul, inject_Z_mult. reflexivity. Qed.

Lemma Qnat_inj (a b : nat) : Qnat a == Qnat b -> a = b.
Proof. unfold Qnat. rewrite inject_Z_injective. lia. Qed.

(** Quotients of counts compare as their cross products do. *)
Lemma ratio_le_cross (a b c d : nat) :
  (0 < b)%nat -> (0 < d)%nat ->
  (sklearn.ratio a b <= sklearn.ratio c d <-> (a * d <= c * b)%nat).
Proof.
  intros Hb Hd. rewrite !ratio_Qnat.
  pose proof (Qnat_pos b Hb) as Hb'. pose proof (Qnat_pos d Hd) as Hd'.
  rewrite <- Qnat_le, !Qnat_mult.
  assert (Hbd : 0 < Qnat b * Qnat d) by (apply Qmult_lt_0_compat; assumption).
  rewrite <- (Qmult_le_r _ _ _ Hbd).
  assert (E1 : Qnat a / Qnat b * (Qnat b * Qnat d) == Qnat a * Qnat d) by (field; lra).
  assert (E2 : Qnat c / Qnat d * (Qnat b * Qnat d) == Qnat c * Qnat b) by (field; lra).
  rewrite E1, E2. reflexivity.
Qed.

Lemma ratio_eq_cross (a b c d : nat) :
  (0 < b)%nat -> (0 < d)%nat ->
  (sklearn.ratio a b == sklearn.ratio c d <-> (a * d = c * b)%nat).
Proof.
  intros Hb Hd. split.
  - intros H. apply Nat.le_antisymm; apply ratio_le_cross; try assumption;
      rewrite H; apply Qle_refl.
  - intros H. apply Qle_antisym; apply ratio_le_cross; try assumption; lia.
Qed.

(** Agreements between labels and predictions: all of them exactly when
    the two vectors are equal. *)
Lemma agreements_all (y y_pred : list bool) :
  length y = length y_pred ->
  (sklearn.count_true (map (fun p => Bool.eqb (fst p) (snd p)) (combine y y_pred))
   <= length y)%nat /\
  (sklearn.count_true (map (fun p => Bool.eqb (fst p) (snd p)) (combine y y_pred))
   = length y <-> y_pred = y).
Proof.
  unfold sklearn.count_true.
  revert y_pred. induction y as [|a y IH]; intros [|b y_pred] Hlen; try discriminate.
  - split; [reflexivity | split; reflexivity].
  - injection Hlen as Hlen. destruct (IH y_pred Hlen) as [Hle Hiff].
    cbn [combine map List.filter fst snd].
    destruct a, b; cbn [Bool.eqb length].
    + split; [lia|]. split.
      * intros H. f_equal. apply Hiff. lia.
      * intros [= ->]. f_equal. apply Hiff. reflexivity.
    + split; [lia|]. split; [intros H; lia | intros H; discriminate].
    + split; [lia|]. split; [intros H; lia | intros H; discriminate].
    + split; [lia|]. split.
      * intros H. f_equal. apply Hiff. lia.
      * intros [= ->]. f_equal. apply Hiff. reflexivity.
Qed.

(** X6.  On a non-empty pair of vectors of one length the accuracy is 1
    exactly when every prediction equals its label. *)
Theorem accuracy_one_iff_exact (y y_pred : list bool) :
  length y = length y_pred -> y <> [] ->
  exists (d : gmap string pyval) (accuracy : Q),
    evaluate_model_metrics y y_pred = Ret d /\
    d !! "accuracy" = Some (PFloat (Fnum accuracy)) /\
    accuracy <= 1 /\
    (accuracy == 1 <-> y_pred = y).
Proof.
  intros Hlen Hne.
  rewrite (evaluate_model_metrics_sums y y_pred Hlen).
  assert (Hpos : (0 < length y)%nat) by (destruct y; [contradiction | simpl; lia]).
  assert (Hnz : Nat.eqb (length y) 0 = false) by (apply Nat.eqb_neq; lia).
  rewrite Hnz. destruct (agreements_all y y_pred Hlen) as [Hle Hiff].
  eexists. eexists. split; [reflexivity|]. split; [reflexivity|].
  split; [apply ratio_unit; assumption|].
  rewrite <- Hiff, <- (ratio_same (length y) Hpos).
  rewrite (ratio_eq_cross _ _ _ _ Hpos Hpos). nia.
Qed.

Lemma accuracy_one_iff_exact_witness :
  length [true; false; true] = length [true; false; false] /\
  [true; false; true] <> @nil bool /\
  exists (d : gmap string pyval) (accuracy : Q),
    evaluate_model_metrics [true; false; true] [true; false; false] = Ret d /\
    d !! "accuracy" = Some (PFloat (Fnum accuracy)) /\
    accuracy <= 1 /\
    (accuracy == 1 <-> [true; false; false] = [true; false; true]).
Proof.
  split; [reflexivity|]. split; [discriminate|].
  apply (accuracy_one_iff_exact [true; false; true] [true; false; false]);
    [reflexivity | discriminate].
Defined.

(** X7.  F1 lies between precision and recall, and it is 0 exactly when
    no sample is a true positive. *)
Theorem f1_between_precision_and_recall (y y_pred : list bool) :
  length y = length y_pred ->
  exists (d : gmap string pyval) (precision recall f1 : Q),
    evaluate_model_metrics y y_pred = Ret d /\
    d !! "precision" = Some (PFloat (Fnum precision)) /\
    d !! "recall" = Some (PFloat (Fnum recall)) /\
    d !! "f1_score" = Some (PFloat (Fnum f1)) /\
    (precision <= recall -> precision <= f1 /\ f1 <= recall) /\
    (recall <= precision -> recall <= f1 /\ f1 <= precision) /\
    (f1 == 0 <-> TP y y_pred = 0%nat).
Proof.
  intros Hlen. rewrite (evaluate_model_metrics_value y y_pred Hlen). cbv zeta.
  set (tp := TP y y_pred). set (fp := FP y y_pred). set (fn := FN y y_pred).
  eexists. eexists. eexists. eexists.
  split; [reflexivity|]. split; [reflexivity|]. split; [reflexivity|].
  split; [reflexivity|].
  destruct (Nat.eq_dec tp 0%nat) as [Hz | Hnz].
  - rewrite Hz. change (2 * 0)%nat with 0%nat. rewrite !prf_divide_zero.
    split; [intros _; split; apply Qle_refl|].
    split; [intros _; split; apply Qle_refl|].
    split; [intros _; reflexivity | intros _; reflexivity].
  - unfold sklearn._prf_divide.
    destruct (Nat.eqb_spec (tp + fp) 0) as [Hbad|_]; [lia|].
    destruct (Nat.eqb_spec (tp + fn) 0) as [Hbad|_]; [lia|].
    destruct (Nat.eqb_spec (tp + fn + (tp + fp)) 0) as [Hbad|_]; [lia|].
    assert (H1 : (0 < tp + fp)%nat) by lia.
    assert (H2 : (0 < tp + fn)%nat) by lia.
    assert (H3 : (0 < tp + fn + (tp + fp))%nat) by lia.
    rewrite !(ratio_le_cross _ _ _ _ H1 H2), !(ratio_le_cross _ _ _ _ H2 H1),
      !(ratio_le_cross _ _ _ _ H1 H3), !(ratio_le_cross _ _ _ _ H3 H2),
      !(ratio_le_cross _ _ _ _ H2 H3), !(ratio_le_cross _ _ _ _ H3 H1).
    split; [intros H; split; nia|]. split; [intros H; split; nia|].
    rewrite <- (ratio_zero 1), (ratio_eq_cross _ _ _ _ H3 Nat.lt_0_1). lia.
Qed.

Lemma f1_between_precision_and_recall_witness :
  length [true; false; true; true] = length [true; true; false; false] /\
  exists (d : gmap string pyval) (precision recall f1 : Q),
    evaluate_model_metrics [true; false; true; true] [true; true; false; false] = Ret d /\
    d !! "precision" = Some (PFloat (Fnum precision)) /\
    d !! "recall" = Some (PFloat (Fnum recall)) /\
    d !! "f1_score" = Some (PFloat (Fnum f1)) /\
    (precision <= recall -> precision <= f1 /\ f1 <= recall) /\
    (recall <= precision -> recall <= f1 /\ f1 <= precision) /\
    (f1 == 0 <-> 1%nat = 0%nat).
Proof.
  split; [reflexivity|].
  exact (f1_between_precision_and_recall
           [true; false; true; true] [true; true; false; false] eq_refl).
Defined.

Lemma tp_sum_monotone (y_pred y_pred' : list bool) :
  Forall2 (fun a b : bool => a = true -> b = true) y_pred y_pred' ->
  forall y : list bool, (sklearn.tp_sum y y_pred <= sklearn.tp_sum y y_pred')%nat.
Proof.
  unfold sklearn.tp_sum, sklearn.count_true.
  induction 1 as [|a b l l' Hab _ IH]; intros [|u y]; try reflexivity.
  cbn [combine map List.filter fst snd]. specialize (IH y).
  destruct u, a; cbn [andb length]; try (rewrite (Hab eq_refl)); cbn [length];
    destruct b; cbn [length]; lia.
Qed.

(** X9.  Recall can only grow with the predicted positives: when every
    sample predicted positive by one vector is predicted positive by
    another (a lower cut-off on the same probabilities), the recall of the
    second is at least that of the first. *)
Theorem recall_monotone (y y_pred y_pred' : list bool) :
  length y = length y_pred ->
  Forall2 (fun a b : bool => a = true -> b = true) y_pred y_pred' ->
  exists (d d' : gmap string pyval) (recall recall' : Q),
    evaluate_model_metrics y y_pred = Ret d /\
    evaluate_model_metrics y y_pred' = Ret d' /\
    d !! "recall" = Some (PFloat (Fnum recall)) /\
    d' !! "recall" = Some (PFloat (Fnum recall')) /\
    recall <= recall'.
Proof.
  intros Hlen Hsub.
  assert (Hlen' : length y = length y_pred').
  { rewrite Hlen. eapply Forall2_length. exact Hsub. }
  rewrite (evaluate_model_metrics_sums y y_pred Hlen),
    (evaluate_model_metrics_sums y y_pred' Hlen').
  eexists. eexists. eexists. eexists.
  split; [reflexivity|]. split; [reflexivity|].
  split; [reflexivity|]. split; [reflexivity|].
  pose proof (tp_sum_monotone y_pred y_pred' Hsub y) as Hle.
  unfold sklearn._prf_divide.
  destruct (Nat.eqb_spec (sklearn.true_sum y) 0) as [_ | Hnz]; [apply Qle_refl|].
  assert (Hpos : (0 < sklearn.true_sum y)%nat) by lia.
  apply (ratio_le_cross _ _ _ _ Hpos Hpos). nia.
Qed.

Lemma recall_monotone_witness :
  length [true; true; false] = length [true; false; false] /\
  Forall2 (fun a b : bool => a = true -> b = true) [true; false; false] [true; true; true] /\
  exists (d d' : gmap string pyval) (recall recall' : Q),
    evaluate_model_metrics [true; true; false] [true; false; false] = Ret d /\
    evaluate_model_metrics [true; true; false] [true; true; true] = Ret d' /\
    d !! "recall" = Some (PFloat (Fnum recall)) /\
    d' !! "recall" = Some (PFloat (Fnum recall')) /\
    recall <= recall'.
Proof.
  assert (Hsub : Forall2 (fun a b : bool => a = true -> b = true)
                   [true; false; false] [true; true; true])
    by (repeat constructor).
  split; [reflexivity|]. split; [exact Hsub|].
  exact (recall_monotone [true; true; false] [true; false; false] [true; true; true]
           eq_refl Hsub).
Defined.

(* ===================================================================== *)
(** * Further properties of the threshold sweep *)
(* ===================================================================== *)

Section SweepRecords.

Variable helper : loc -> loc -> loc -> Q -> M (gmap string pyval).
Variables model X y : loc.
Variable metric : string.

(** Whatever the evaluation does to the state, a loop that returns has
    recorded one float per threshold, and kept the best of the record. *)
Lemma loop_records (thresholds : list Q) :
  forall (bt : Q) (bv : pyfloat) (mvs : list (Q * pyval)) (s : state)
         (bt' : Q) (bv' : pyval) (mvs' : list (Q * pyval)) (s' : state),
    find_best_threshold_loop helper model X y metric thresholds bt (PFloat bv) mvs s =
      (Ret (bt', bv', mvs'), s') ->
    exists new : list (Q * pyval),
      mvs' = mvs ++ new /\
      map fst new = thresholds /\
      (forall t v, In (t, v) new -> exists f, v = PFloat f) /\
      bt' = fst (best_recorded new bt bv) /\
      bv' = PFloat (snd (best_recorded new bt bv)).
Proof.
  induction thresholds as [|t rest IH]; intros bt bv mvs s bt' bv' mvs' s' Hrun.
  - cbn in Hrun. injection Hrun as <- <- <- <-.
    exists []. rewrite app_nil_r. repeat split. intros t v [].
  - cbn [find_best_threshold_loop] in Hrun. unfold bind, lift in Hrun.
    destruct (helper model X y t s) as [[d|e] s1]; [|discriminate].
    destruct (dict_getitem d metric) as [v|e]; [|discriminate].
    destruct v as [f|str]; cbn [py_gt] in Hrun; [|discriminate].
    destruct (fgt f bv) eqn:Hgt.
    + destruct (IH _ _ _ _ _ _ _ _ Hrun) as (new & Hm & Hfst & Hfl & Hbt & Hbv).
      exists ((t, PFloat f) :: new).
      split; [rewrite Hm, <- app_assoc; reflexivity|].
      split; [cbn; rewrite Hfst; reflexivity|].
      split; [intros u v [[= <- <-] | Hin]; [eexists; reflexivity | eapply Hfl; exact Hin]|].
      cbn [best_recorded]. rewrite Hgt. split; assumption.
    + destruct (IH _ _ _ _ _ _ _ _ Hrun) as (new & Hm & Hfst & Hfl & Hbt & Hbv).
      exists ((t, PFloat f) :: new).
      split; [rewrite Hm, <- app_assoc; reflexivity|].
      split; [cbn; rewrite Hfst; reflexivity|].
      split; [intros u v [[= <- <-] | Hin]; [eexists; reflexivity | eapply Hfl; exact Hin]|].
      cbn [best_recorded]. rewrite Hgt. split; assumption.
Qed.

(** The best of a record: the initial pair, nothing recorded beating it,
    or the first recorded pair with the greatest value. *)
Lemma best_recorded_spec (record : list (Q * pyval)) :
  forall (bt : Q) (bv : pyfloat),
    (best_recorded record bt bv = (bt, bv) /\
     forall t f, In (t, PFloat f) record -> fgt f bv = false)
    \/
    (exists (best : Q) (f : pyfloat) (before after : list (Q * pyval)),
       best_recorded record bt bv = (best, f) /\
       record = before ++ (best, PFloat f) :: after /\
       fgt f bv = true /\
       (forall t f', In (t, PFloat f') before -> fgt f' f = false /\ ~ same_float f' f) /\
       (forall t f', In (t, PFloat f') after -> fgt f' f = false)).
Proof.
  induction record as [|[t [f|str]] rest IH]; intros bt bv.
  - left. split; [reflexivity | intros t f []].
  - cbn [best_recorded]. destruct (fgt f bv) eqn:Hgt.
    + right. destruct (IH t f) as [[Heq Hall] | (best & g & before & after & Heq & Hsplit & Hbest & Hbefore & Hafter)].
      * exists t, f, [], rest. split; [assumption|]. split; [reflexivity|].
        split; [assumption|]. split; [intros u g [] | assumption].
      * exists best, g, ((t, PFloat f) :: before), after. split; [assumption|].
        split; [rewrite Hsplit; reflexivity|].
        split; [eapply fgt_trans; eassumption|]. split; [|assumption].
        intros u g' [[= <- <-] | Hu]; [apply fgt_irrefl_rev; assumption | eapply Hbefore; eassumption].
    + destruct (IH bt bv) as [[Heq Hall] | (best & g & before & after & Heq & Hsplit & Hbest & Hbefore & Hafter)].
      * left. split; [assumption|].
        intros u g [[= <- <-] | Hu]; [assumption | eapply Hall; eassumption].
      * right. exists best, g, ((t, PFloat f) :: before), after. split; [assumption|].
        split; [rewrite Hsplit; reflexivity|].
        split; [assumption|]. split; [|assumption].
        intros u g' [[= <- <-] | Hu]; [eapply fgt_below; eassumption | eapply Hbefore; eassumption].
  - cbn [best_recorded].
    destruct (IH bt bv) as [[Heq Hall] | (best & g & before & after & Heq & Hsplit & Hbest & Hbefore & Hafter)].
    + left. split; [assumption|].
      intros u g [Hu | Hu]; [discriminate | eapply Hall; eassumption].
    + right. exists best, g, ((t, PStr str) :: before), after. split; [assumption|].
      split; [rewrite Hsplit; reflexivity|].
      split; [assumption|]. split; [|assumption].
      intros u g' [Hu | Hu]; [discriminate | eapply Hbefore; eassumption].
Qed.

End SweepRecords.

(** X10.  Whatever the evaluation does (it may depend on the state and
    change it), a [find_best_threshold] that returns gives back one
    recorded pair per supplied threshold, in order, each with a float, and
    a threshold that agrees with that record: 0.5 when no recorded value
    exceeds 0, and otherwise the threshold of the first recorded pair that
    reaches the greatest recorded value. *)
Theorem find_best_threshold_agrees_with_record
    (helper : loc -> loc -> loc -> Q -> M (gmap string pyval))
    (model X y : loc) (metric : string) (thresholds : list Q) (s : state)
    (best : Q) (metric_values : list (Q * pyval)) (s' : state) :
  find_best_threshold helper model X y metric thresholds s =
    (Ret (best, metric_values), s') ->
  map fst metric_values = thresholds /\
  (forall t v, In (t, v) metric_values -> exists f, v = PFloat f) /\
  ((best = 1 # 2 /\
    forall t f, In (t, PFloat f) metric_values -> fgt f (Fnum 0) = false)
   \/
   (exists (f : pyfloat) (before after : list (Q * pyval)),
      metric_values = before ++ (best, PFloat f) :: after /\
      fgt f (Fnum 0) = true /\
      (forall t f', In (t, PFloat f') metric_values -> fgt f' f = false) /\
      (forall t f', In (t, PFloat f') before -> ~ same_float f' f))).
Proof.
  intros Hrun. unfold find_best_threshold, bind in Hrun.
  destruct (find_best_threshold_loop helper model X y metric thresholds
              (1 # 2) (PFloat (Fnum 0)) [] s) as [[[[bt bv] mvs]|e] s1] eqn:Hloop;
    [|discriminate].
  cbn in Hrun. injection Hrun as <- <- <-.
  destruct (loop_records helper model X y metric thresholds _ _ _ _ _ _ _ _ Hloop)
    as (new & Hm & Hfst & Hfl & Hbt & Hbv).
  cbn [app] in Hm. subst mvs.
  split; [exact Hfst|]. split; [exact Hfl|].
  destruct (best_recorded_spec new (1 # 2) (Fnum 0))
    as [[Heq Hall] | (b & f & before & after & Heq & Hsplit & Hbest & Hbefore & Hafter)];
    rewrite Heq in Hbt; cbn [fst] in Hbt; subst bt.
  - left. split; [reflexivity | exact Hall].
  - right. exists f, before, after.
    split; [exact Hsplit|]. split; [exact Hbest|]. split.
    + intros t f' Hin. rewrite Hsplit in Hin. apply in_app_or in Hin.
      destruct Hin as [Hin | [[= <- <-] | Hin]].
      * eapply Hbefore. exact Hin.
      * apply fgt_true in Hbest. destruct Hbest as (q & z & -> & _ & _).
        apply fgt_false_num. apply Qle_refl.
      * eapply Hafter. exact Hin.
    + intros t f' Hin. eapply Hbefore. exact Hin.
Qed.

Lemma find_best_threshold_agrees_with_record_witness :
  exists (best : Q) (metric_values : list (Q * pyval)) (s' : state),
    find_best_threshold model_training.evaluate_model_with_threshold
      model_ref X_ref y_ref "precision" [1 # 10; 1 # 2; 9 # 10] demo_state =
      (Ret (best, metric_values), s') /\
    map fst metric_values = [1 # 10; 1 # 2; 9 # 10] /\
    exists (f : pyfloat) (before after : list (Q * pyval)),
      metric_values = before ++ (best, PFloat f) :: after /\
      fgt f (Fnum 0) = true.
Proof.
  destruct (find_best_threshold model_training.evaluate_model_with_threshold
              model_ref X_ref y_ref "precision" [1 # 10; 1 # 2; 9 # 10] demo_state)
    as [[[best mvs]|e] s'] eqn:Hrun; [|vm_compute in Hrun; discriminate].
  exists best, mvs, s'. split; [reflexivity|].
  destruct (find_best_threshold_agrees_with_record _ _ _ _ _ _ _ _ _ _ Hrun)
    as (Hfst & _ & [[Hdefault Hnone] | (f & before & after & Hsplit & Hpos & _)]).
  - exfalso. vm_compute in Hrun. injection Hrun as _ <- _.
    specialize (Hnone (1 # 2) (Fnum 1) (or_intror (or_introl eq_refl))).
    discriminate.
  - split; [exact Hfst|]. exists f, before, after. split; [exact Hsplit | exact Hpos].
Defined.

(** X11.  A metric name the metrics dict does not hold raises [KeyError]
    at the first threshold of the sweep, after one evaluation and before
    anything is printed; so does the labelled evaluation when it has to
    search.  With a threshold given, the metric argument is not looked at:
    any two metric names give the same call. *)
Theorem unknown_metric_raises_only_when_searching
    (helper : loc -> loc -> loc -> Q -> M (gmap string pyval))
    (model X y : loc) (metric : string) (t : Q) (s : state)
    (d : gmap string pyval) (s1 : state) :
  helper model X y t s = (Ret d, s1) ->
  d !! metric = None ->
  (forall rest : list Q,
     find_best_threshold helper model X y metric (t :: rest) s =
       (Raise (KeyError metric), s1)) /\
  (forall (model_name training_split : string) (threshold : option Q),
     py_truthy threshold = false -> t = 0 ->
     evaluate_model_with_threshold_params helper model_name model X y
       training_split metric threshold s = (Raise (KeyError metric), s1)) /\
  (forall (model_name training_split metric' : string) (threshold : option Q),
     py_truthy threshold = true ->
     evaluate_model_with_threshold_params helper model_name model X y
       training_split metric threshold s =
     evaluate_model_with_threshold_params helper model_name model X y
       training_split metric' threshold s).
Proof.
  intros Hcall Hmiss.
  assert (Hsweep : forall rest : list Q,
            find_best_threshold helper model X y metric (t :: rest) s =
              (Raise (KeyError metric), s1)).
  { intros rest. unfold find_best_threshold. unfold bind at 1.
    cbn [find_best_threshold_loop]. unfold bind at 1. rewrite Hcall.
    unfold bind at 1, lift at 1, dict_getitem. rewrite Hmiss. reflexivity. }
  split; [exact Hsweep|]. split.
  - intros model_name training_split threshold Hfalsy Hzero.
    unfold evaluate_model_with_threshold_params. rewrite Hfalsy. cbn [negb].
    unfold bind at 1. unfold bind at 1.
    change default_thresholds with (0 :: tl default_thresholds).
    rewrite <- Hzero, Hsweep. reflexivity.
  - intros model_name training_split metric' threshold Htruthy.
    unfold evaluate_model_with_threshold_params. rewrite Htruthy. reflexivity.
Qed.

Lemma unknown_metric_raises_only_when_searching_witness :
  exists (d : gmap string pyval),
    model_training.evaluate_model_with_threshold model_ref X_ref y_ref 0 demo_state =
      (Ret d, demo_state) /\
    d !! "f1" = None /\
    find_best_threshold model_training.evaluate_model_with_threshold
      model_ref X_ref y_ref "f1" (0 :: tl default_thresholds) demo_state =
      (Raise (KeyError "f1"), demo_state) /\
    evaluate_model_with_threshold_params model_training.evaluate_model_with_threshold
      "gdbt_default" model_ref X_ref y_ref default_training_split "f1" None demo_state =
      (Raise (KeyError "f1"), demo_state).
Proof.
  eexists.
  assert (Hcall : model_training.evaluate_model_with_threshold
                    model_ref X_ref y_ref 0 demo_state = (Ret _, demo_state))
    by (vm_compute; reflexivity).
  assert (Hmiss : forall d, Ret d = fst (model_training.evaluate_model_with_threshold
                                           model_ref X_ref y_ref 0 demo_state) ->
                            d !! "f1" = None).
  { intros d Hd. vm_compute in Hd. injection Hd as ->. reflexivity. }
  split; [exact Hcall|].
  specialize (Hmiss _ (eq_sym (f_equal fst Hcall))).
  split; [exact Hmiss|].
  destruct (unknown_metric_raises_only_when_searching
              model_training.evaluate_model_with_threshold model_ref X_ref y_ref
              "f1" 0 demo_state _ demo_state Hcall Hmiss) as (Hsweep & Hparams & _).
  split; [apply Hsweep | apply Hparams; reflexivity].
Defined.

Lemma sweep_keeps (score : Q -> pyfloat) (rest : list Q) :
  forall (bt : Q) (bv : pyfloat),
    (forall t, In t rest -> fgt (score t) bv = false) ->
    sweep score rest bt bv = (bt, bv).
Proof.
  induction rest as [|t rest IH]; intros bt bv Hall; [reflexivity|].
  cbn [sweep]. rewrite (Hall t (or_introl eq_refl)).
  apply IH. intros u Hu. apply Hall. right. exact Hu.
Qed.

(** X12.  When the first supplied threshold scores above 0 and no later
    one scores strictly higher (as recall does along a rising grid), the sweep returns the first threshold. *)
Theorem find_best_threshold_first_wins
    (helper : loc -> loc -> loc -> Q -> M (gmap string pyval))
    (model X y : loc) (metric : string) (first : Q) (rest : list Q)
    (s0 : state) (score : Q -> pyfloat) :
  metric_at helper model X y metric (first :: rest) s0 score ->
  fgt (score first) (Fnum 0) = true ->
  (forall t, In t rest -> fgt (score t) (score first) = false) ->
  exists (metric_values : list (Q * pyval)) (s' : state),
    find_best_threshold helper model X y metric (first :: rest) s0 =
      (Ret (first, metric_values), s').
Proof.
  intros Hscore Hpos Hrest.
  destruct (find_best_threshold_scored helper model X y metric score (first :: rest) s0 Hscore)
    as (s' & Hrun & _).
  cbn [sweep] in Hrun. rewrite Hpos in Hrun.
  rewrite (sweep_keeps score rest first (score first) Hrest) in Hrun.
  eexists. eexists. exact Hrun.
Qed.

Lemma find_best_threshold_first_wins_witness :
  metric_at model_training.evaluate_model_with_threshold model_ref X_ref y_ref
    "recall" [1 # 10; 1 # 2; 9 # 10] demo_state (demo_score "recall") /\
  fgt (demo_score "recall" (1 # 10)) (Fnum 0) = true /\
  (forall t, In t [1 # 2; 9 # 10] ->
     fgt (demo_score "recall" t) (demo_score "recall" (1 # 10)) = false) /\
  exists (metric_values : list (Q * pyval)) (s' : state),
    find_best_threshold model_training.evaluate_model_with_threshold
      model_ref X_ref y_ref "recall" [1 # 10; 1 # 2; 9 # 10] demo_state =
      (Ret (1 # 10, metric_values), s').
Proof.
  assert (Hpos : fgt (demo_score "recall" (1 # 10)) (Fnum 0) = true)
    by (vm_compute; reflexivity).
  assert (Hrest : forall t, In t [1 # 2; 9 # 10] ->
            fgt (demo_score "recall" t) (demo_score "recall" (1 # 10)) = false).
  { intros t [<- | [<- | []]]; vm_compute; reflexivity. }
  split; [exact demo_recall_metric_at|]. split; [exact Hpos|]. split; [exact Hrest|].
  exact (find_best_threshold_first_wins model_training.evaluate_model_with_threshold
           model_ref X_ref y_ref "recall" (1 # 10) [1 # 2; 9 # 10] demo_state
           (demo_score "recall") demo_recall_metric_at Hpos Hrest).
Defined.

(** X13.  The dict [evaluate_model_with_threshold_params] returns is the
    metrics dict of one evaluation (at the given threshold when there is
    one) with ["model_name"] and ["split"] set to the two arguments, also
    over entries of those names; every other entry is passed on untouched. *)
Theorem labelled_record
    (helper : loc -> loc -> loc -> Q -> M (gmap string pyval))
    (model_name : string) (model X y : loc) (training_split metric : string)
    (threshold : option Q) (s : state) (d : gmap string pyval) (s' : state) :
  evaluate_model_with_threshold_params helper model_name model X y
    training_split metric threshold s = (Ret d, s') ->
  d !! "model_name" = Some (PStr model_name) /\
  d !! "split" = Some (PStr training_split) /\
  exists (t : Q) (s0 : state) (d0 : gmap string pyval),
    helper model X y t s0 = (Ret d0, s') /\
    (forall key : string, key <> "model_name" -> key <> "split" -> d !! key = d0 !! key) /\
    (py_truthy threshold = true -> t = default 0 threshold /\ s0 = s).
Proof.
  intros Hrun. unfold evaluate_model_with_threshold_params in Hrun.
  assert (Hlabels : forall (t : Q) (s0 : state),
            (metrics <- helper model X y t ;;
             let metrics := <["model_name" := PStr model_name]> metrics in
             let metrics := <["split" := PStr training_split]> metrics in
             ret metrics) s0 = (Ret d, s') ->
            d !! "model_name" = Some (PStr model_name) /\
            d !! "split" = Some (PStr training_split) /\
            exists d0 : gmap string pyval,
              helper model X y t s0 = (Ret d0, s') /\
              (forall key : string, key <> "model_name" -> key <> "split" ->
                 d !! key = d0 !! key)).
  { intros t s0 H. unfold bind, ret in H.
    destruct (helper model X y t s0) as [[d0|e] s1]; [|discriminate].
    cbv zeta in H. injection H as <- <-.
    split; [rewrite lookup_insert_ne by discriminate; apply lookup_insert_eq|].
    split; [apply lookup_insert_eq|].
    exists d0. split; [reflexivity|].
    intros key H1 H2. rewrite !lookup_insert_ne by congruence. reflexivity. }
  destruct (py_truthy threshold) eqn:Htruthy; cbn [negb] in Hrun.
  - unfold bind at 1, ret at 1 in Hrun.
    destruct (Hlabels _ _ Hrun) as (H1 & H2 & d0 & Hcall & Hkeys).
    split; [exact H1|]. split; [exact H2|].
    exists (default 0 threshold), s, d0.
    split; [exact Hcall|]. split; [exact Hkeys|]. intros _. split; reflexivity.
  - unfold bind at 1 in Hrun. unfold bind at 1 in Hrun.
    destruct (find_best_threshold helper model X y metric default_thresholds s)
      as [[found|e] s1]; [|discriminate].
    unfold ret at 1 in Hrun.
    destruct (Hlabels _ _ Hrun) as (H1 & H2 & d0 & Hcall & Hkeys).
    split; [exact H1|]. split; [exact H2|].
    exists (fst found), s1, d0.
    split; [exact Hcall|]. split; [exact Hkeys|]. intros Hbad. discriminate.
Qed.

Lemma labelled_record_witness :
  exists (d : gmap string pyval) (s' : state),
    evaluate_model_with_threshold_params model_training.evaluate_model_with_threshold
      "random_forest_pruned" model_ref X_ref y_ref default_training_split default_metric
      (Some (1 # 2)) demo_state = (Ret d, s') /\
    d !! "model_name" = Some (PStr "random_forest_pruned") /\
    d !! "split" = Some (PStr "default").
Proof.
  destruct (evaluate_model_with_threshold_params
              model_training.evaluate_model_with_threshold
              "random_forest_pruned" model_ref X_ref y_ref default_training_split
              default_metric (Some (1 # 2)) demo_state)
    as [[d|e] s'] eqn:Hrun; [|vm_compute in Hrun; discriminate].
  exists d, s'. split; [reflexivity|].
  destruct (labelled_record _ _ _ _ _ _ _ _ _ _ _ Hrun) as (H1 & H2 & _).
  split; [exact H1 | exact H2].
Defined.

Section SweepOutput.

Variable helper : loc -> loc -> loc -> Q -> M (gmap string pyval).
Variables model X y : loc.
Variable metric : string.

(** The evaluation prints nothing. *)
Hypothesis helper_quiet :
  forall (t : Q) (s : state), stdout (snd (helper model X y t s)) = stdout s.

Lemma loop_quiet (thresholds : list Q) :
  forall (bt : Q) (bv : pyval) (mvs : list (Q * pyval)) (s : state),
    stdout (snd (find_best_threshold_loop helper model X y metric thresholds bt bv mvs s))
    = stdout s.
Proof.
  induction thresholds as [|t rest IH]; intros bt bv mvs s; [reflexivity|].
  cbn [find_best_threshold_loop]. unfold bind, lift.
  pose proof (helper_quiet t s) as Ht.
  destruct (helper model X y t s) as [[d|e] s1]; cbn [snd] in Ht; [|exact Ht].
  destruct (dict_getitem d metric) as [v|e]; [|exact Ht].
  destruct (py_gt v bv) as [[|]|e]; [| |exact Ht]; rewrite IH; exact Ht.
Qed.

(** X14.  What the two functions print, the evaluation itself being
    silent: a search that returns prints exactly one line, after all its
    evaluations, naming the metric it was given and the threshold it
    returns; a search that raises prints nothing; the labelled evaluation
    prints that one line when it searches and nothing when a threshold is
    given. *)
Theorem one_line_per_search :
  (forall (thresholds : list Q) (s : state) (best : Q)
          (metric_values : list (Q * pyval)) (s' : state),
     find_best_threshold helper model X y metric thresholds s =
       (Ret (best, metric_values), s') ->
     exists v : pyval, stdout s' = stdout s ++ [BestThresholdLine metric best v]) /\
  (forall (thresholds : list Q) (s : state) (e : exn) (s' : state),
     find_best_threshold helper model X y metric thresholds s = (Raise e, s') ->
     stdout s' = stdout s) /\
  (forall (model_name training_split : string) (threshold : option Q) (s : state),
     py_truthy threshold = true ->
     stdout (snd (evaluate_model_with_threshold_params helper model_name model X y
                    training_split metric threshold s)) = stdout s) /\
  (forall (model_name training_split : string) (threshold : option Q) (s : state)
          (d : gmap string pyval) (s' : state),
     py_truthy threshold = false ->
     evaluate_model_with_threshold_params helper model_name model X y
       training_split metric threshold s = (Ret d, s') ->
     exists (best : Q) (v : pyval),
       stdout s' = stdout s ++ [BestThresholdLine metric best v]).
Proof.
  assert (Hret : forall (thresholds : list Q) (s : state) (best : Q)
                        (metric_values : list (Q * pyval)) (s' : state),
            find_best_threshold helper model X y metric thresholds s =
              (Ret (best, metric_values), s') ->
            exists v : pyval, stdout s' = stdout s ++ [BestThresholdLine metric best v]).
  { intros thresholds s best mvs s' Hrun. unfold find_best_threshold, bind in Hrun.
    pose proof (loop_quiet thresholds (1 # 2) (PFloat (Fnum 0)) [] s) as Hq.
    destruct (find_best_threshold_loop helper model X y metric thresholds
                (1 # 2) (PFloat (Fnum 0)) [] s) as [[[[bt bv] mvs0]|e] s1];
      [|discriminate].
    cbn in Hrun, Hq. injection Hrun as <- <- <-. cbn [stdout].
    exists bv. rewrite Hq. reflexivity. }
  split; [exact Hret|]. split; [|split].
  - intros thresholds s e s' Hrun. unfold find_best_threshold, bind in Hrun.
    pose proof (loop_quiet thresholds (1 # 2) (PFloat (Fnum 0)) [] s) as Hq.
    destruct (find_best_threshold_loop helper model X y metric thresholds
                (1 # 2) (PFloat (Fnum 0)) [] s) as [[[[bt bv] mvs0]|e0] s1].
    + discriminate.
    + injection Hrun as <- <-. exact Hq.
  - intros model_name training_split threshold s Htruthy.
    unfold evaluate_model_with_threshold_params. rewrite Htruthy. cbn [negb].
    unfold bind, ret. pose proof (helper_quiet (default 0 threshold) s) as Hq.
    destruct (helper model X y (default 0 threshold) s) as [[d|e] s1]; exact Hq.
  - intros model_name training_split threshold s d s' Hfalsy Hrun.
    unfold evaluate_model_with_threshold_params in Hrun. rewrite Hfalsy in Hrun.
    cbn [negb] in Hrun. unfold bind at 1 in Hrun. unfold bind at 1 in Hrun.
    destruct (find_best_threshold helper model X y metric default_thresholds s)
      as [[[best mvs]|e] s1] eqn:Hsearch; [|discriminate].
    destruct (Hret _ _ _ _ _ Hsearch) as [v Hv].
    unfold ret at 1, bind in Hrun. cbn [fst] in Hrun.
    pose proof (helper_quiet best s1) as Hq.
    destruct (helper model X y best s1) as [[d0|e] s2]; [|discriminate].
    cbn in Hrun, Hq. injection Hrun as _ <-.
    exists best, v. rewrite Hq. exact Hv.
Qed.

End SweepOutput.

Lemma model_training_evaluate_quiet (t : Q) (s : state) :
  stdout (snd (model_training.evaluate_model_with_threshold model_ref X_ref y_ref t s))
  = stdout s.
Proof. rewrite model_training_evaluate_state. reflexivity. Qed.

Lemma one_line_per_search_witness :
  (forall (t : Q) (s : state),
     stdout (snd (model_training.evaluate_model_with_threshold model_ref X_ref y_ref t s))
     = stdout s) /\
  (exists v : pyval,
     stdout (snd (find_best_threshold model_training.evaluate_model_with_threshold
                    model_ref X_ref y_ref "recall" [1 # 10; 1 # 2; 9 # 10] demo_state))
     = stdout demo_state ++ [BestThresholdLine "recall" (1 # 10) v]) /\
  stdout (snd (evaluate_model_with_threshold_params
                 model_training.evaluate_model_with_threshold
                 "gdbt_default" model_ref X_ref y_ref default_training_split "recall"
                 (Some (1 # 2)) demo_state)) = stdout demo_state.
Proof.
  split; [exact model_training_evaluate_quiet|].
  destruct (one_line_per_search model_training.evaluate_model_with_threshold
              model_ref X_ref y_ref "recall" model_training_evaluate_quiet)
    as (Hret & _ & Hgiven & _).
  split.
  - destruct (find_best_threshold model_training.evaluate_model_with_threshold
                model_ref X_ref y_ref "recall" [1 # 10; 1 # 2; 9 # 10] demo_state)
      as [[[best mvs]|e] s'] eqn:Hrun; [|vm_compute in Hrun; discriminate].
    assert (Hbest : best = 1 # 10) by (vm_compute in Hrun; congruence).
    subst best. exact (Hret _ _ _ _ _ Hrun).
  - apply Hgiven. reflexivity.
Defined.

(** X15.  The record of a tuned evaluation reports the best score of the
    grid: when [evaluate_model_with_threshold_params] has to search, the
    metric is not one of the two label keys and some point of the default
    grid scores above 0, the returned dict holds, under the metric, the
    score of a grid point that no grid point exceeds. *)
Theorem tuned_record_reports_maximum
    (helper : loc -> loc -> loc -> Q -> M (gmap string pyval))
    (model_name : string) (model X y : loc) (training_split metric : string)
    (threshold : option Q) (s0 : state) (score : Q -> pyfloat) :
  metric_at helper model X y metric default_thresholds s0 score ->
  py_truthy threshold = false ->
  metric <> "model_name" -> metric <> "split" ->
  (exists t, In t default_thresholds /\ fgt (score t) (Fnum 0) = true) ->
  exists (d : gmap string pyval) (s' : state) (best : Q),
    evaluate_model_with_threshold_params helper model_name model X y
      training_split metric threshold s0 = (Ret d, s') /\
    In best default_thresholds /\
    d !! metric = Some (PFloat (score best)) /\
    (forall t, In t default_thresholds -> fgt (score t) (score best) = false).
Proof.
  intros Hscore Hfalsy Hm1 Hm2 (t0 & Hin0 & Hpos0).
  destruct (find_best_threshold_scored helper model X y metric score
              default_thresholds s0 Hscore) as (s1 & Hrun & Hinv).
  destruct (sweep_spec score default_thresholds (1 # 2) (Fnum 0))
    as [[_ Hall] | (best & before & after & Heq & Hsplit & Hbest & Hbefore & Hafter)];
    [rewrite (Hall t0 Hin0) in Hpos0; discriminate|].
  rewrite Heq in Hrun. cbn [fst] in Hrun.
  assert (Hin : In best default_thresholds).
  { rewrite Hsplit. apply in_or_app. right. left. reflexivity. }
  destruct (Hscore best s1 Hin Hinv) as (d0 & s2 & Hcall & _ & Hd0).
  unfold evaluate_model_with_threshold_params. rewrite Hfalsy. cbn [negb].
  unfold bind at 1. unfold bind at 1. rewrite Hrun.
  unfold ret at 1, bind. cbn [fst]. rewrite Hcall. cbv zeta. unfold ret.
  eexists. eexists. exists best. split; [reflexivity|]. split; [exact Hin|].
  split; [rewrite !lookup_insert_ne by congruence; exact Hd0|].
  intros t Ht. rewrite Hsplit in Ht. apply in_app_or in Ht.
  destruct Ht as [Ht | [<- | Ht]].
  - apply Hbefore. exact Ht.
  - apply fgt_true in Hbest. destruct Hbest as (q & z & Hq & _ & _).
    rewrite Hq. apply fgt_false_num. apply Qle_refl.
  - apply Hafter. exact Ht.
Qed.

(** On vectors of one length the dict holds a float under each of the
    four names. *)
Lemma evaluate_model_metrics_returns (y y_pred : list bool) :
  length y = length y_pred ->
  exists d : gmap string pyval,
    evaluate_model_metrics y y_pred = Ret d /\
    forall key, In key metric_names -> exists f : pyfloat, d !! key = Some (PFloat f).
Proof.
  intros Hlen. rewrite (evaluate_model_metrics_value y y_pred Hlen). cbv zeta.
  eexists. split; [reflexivity|].
  intros key [<- | [<- | [<- | [<- | []]]]]; eexists; reflexivity.
Qed.

(** The modelled evaluation on the demo globals returns at every
    threshold. *)
Lemma demo_evaluate_returns (t : Q) :
  exists d : gmap string pyval,
    model_training.evaluate_model_with_threshold model_ref X_ref y_ref t demo_state =
      (Ret d, demo_state) /\
    forall key, In key metric_names -> exists f : pyfloat, d !! key = Some (PFloat f).
Proof.
  destruct (evaluate_model_metrics_returns (map snd demo_y)
              (map (fun p => negb (Qle_bool p t)) [7 # 10; 1 # 5]) eq_refl)
    as (d & Hd & Hk).
  exists d. split; [|exact Hk].
  exact (f_equal (fun o => (o, demo_state)) Hd).
Qed.

Lemma demo_metric_at_default :
  metric_at model_training.evaluate_model_with_threshold model_ref X_ref y_ref
    "recall" default_thresholds demo_state (demo_score "recall").
Proof.
  intros t s _ Hs.
  rewrite (model_training_evaluate_reads_inputs _ _ _ t demo_state s Hs).
  destruct (demo_evaluate_returns t) as (d & Hd & Hk).
  exists d, s. unfold demo_score. rewrite Hd. cbn [fst].
  split; [reflexivity|]. split; [exact Hs|].
  destruct (Hk "recall") as [f Hf]; [right; left; reflexivity|].
  rewrite Hf. reflexivity.
Qed.

Lemma tuned_record_reports_maximum_witness :
  metric_at model_training.evaluate_model_with_threshold model_ref X_ref y_ref
    "recall" default_thresholds demo_state (demo_score "recall") /\
  py_truthy None = false /\
  "recall" <> "model_name" /\ "recall" <> "split" /\
  (exists t, In t default_thresholds /\ fgt (demo_score "recall" t) (Fnum 0) = true) /\
  exists (d : gmap string pyval) (s' : state) (best : Q),
    evaluate_model_with_threshold_params model_training.evaluate_model_with_threshold
      "gdbt_default" model_ref X_ref y_ref default_training_split "recall" None demo_state =
      (Ret d, s') /\
    In best default_thresholds /\
    d !! "recall" = Some (PFloat (demo_score "recall" best)) /\
    (forall t, In t default_thresholds ->
       fgt (demo_score "recall" t) (demo_score "recall" best) = false).
Proof.
  assert (Hpos : exists t, In t default_thresholds /\
                           fgt (demo_score "recall" t) (Fnum 0) = true).
  { exists 0. split; [left; reflexivity | vm_compute; reflexivity]. }
  assert (H1 : "recall" <> "model_name") by discriminate.
  assert (H2 : "recall" <> "split") by discriminate.
  split; [exact demo_metric_at_default|]. split; [reflexivity|].
  split; [exact H1|]. split; [exact H2|]. split; [exact Hpos|].
  exact (tuned_record_reports_maximum model_training.evaluate_model_with_threshold
           "gdbt_default" model_ref X_ref y_ref default_training_split "recall" None
           demo_state (demo_score "recall") demo_metric_at_default eq_refl H1 H2 Hpos).
Defined.

(* ===================================================================== *)
(** * The training cells *)
(* ===================================================================== *)

Section TrainingCellsFacts.

Variable Predictions : Type.
Variable train_model :
  loc -> loc -> loc -> loc -> loc -> ST notebook (Predictions * loc * loc).
Variables X_train y_train X_val y_val : loc.

(** One pass of the loop body that returns. *)
Lemma training_step_returns (model_name : string) (clf : loc) (c c' : cell) :
  training_step Predictions train_model X_train y_train X_val y_val model_name clf c
    = (Ret tt, c') ->
  exists (p : Predictions) (train_metrics val_metrics : loc) (w1 : notebook)
         (dt dv : gmap string pyval),
    train_model clf X_train y_train X_val y_val (nb c)
      = (Ret (p, train_metrics, val_metrics), w1) /\
    dicts w1 !! train_metrics = Some dt /\
    dicts w1 !! val_metrics = Some dv /\
    models_training_results c' = models_training_results c ++ [val_metrics; train_metrics] /\
    interp (nb c') = interp w1 /\
    labelled (nb c') val_metrics model_name "validation" /\
    (train_metrics <> val_metrics -> labelled (nb c') train_metrics model_name "training") /\
    (forall r, r <> train_metrics -> r <> val_metrics ->
       dicts (nb c') !! r = dicts w1 !! r).
Proof.
  intros Hrun. unfold training_step, st_bind, on_notebook in Hrun.
  destruct (train_model clf X_train y_train X_val y_val (nb c))
    as [[[[p tr] va]|e] w1] eqn:Hcall; [|discriminate].
  cbn [nb models_training_results] in Hrun.
  unfold dict_setitem at 1 in Hrun.
  destruct (dicts w1 !! tr) as [dt|] eqn:Htr; [|discriminate].
  cbn [nb models_training_results dicts interp] in Hrun.
  unfold dict_setitem at 1 in Hrun. cbn [dicts interp] in Hrun.
  rewrite lookup_insert_eq in Hrun.
  cbn [nb models_training_results dicts interp] in Hrun.
  unfold dict_setitem at 1 in Hrun. cbn [dicts interp] in Hrun.
  destruct (decide (tr = va)) as [<- | Hne].
  - rewrite lookup_insert_eq in Hrun.
    cbn [nb models_training_results dicts interp] in Hrun.
    unfold dict_setitem at 1 in Hrun. cbn [dicts interp] in Hrun.
    rewrite lookup_insert_eq in Hrun.
    cbn [nb models_training_results dicts interp extend] in Hrun.
    injection Hrun as <-.
    exists p, tr, tr, w1, dt, dt. unfold labelled.
    cbn [nb models_training_results dicts interp].
    split; [reflexivity|]. split; [exact Htr|]. split; [exact Htr|].
    split; [reflexivity|]. split; [reflexivity|]. split.
    + eexists. split; [apply lookup_insert_eq|]. split.
      * rewrite lookup_insert_ne by discriminate. apply lookup_insert_eq.
      * apply lookup_insert_eq.
    + split; [intros Hbad; contradiction|].
      intros r Hr _. rewrite !lookup_insert_ne by congruence. reflexivity.
  - rewrite !lookup_insert_ne in Hrun by exact Hne.
    destruct (dicts w1 !! va) as [dv|] eqn:Hva; [|discriminate].
    cbn [nb models_training_results dicts interp] in Hrun.
    unfold dict_setitem at 1 in Hrun. cbn [dicts interp] in Hrun.
    rewrite lookup_insert_eq in Hrun.
    cbn [nb models_training_results dicts interp extend] in Hrun.
    injection Hrun as <-.
    exists p, tr, va, w1, dt, dv. unfold labelled.
    cbn [nb models_training_results dicts interp].
    split; [reflexivity|]. split; [exact Htr|]. split; [exact Hva|].
    split; [reflexivity|]. split; [reflexivity|]. split.
    + eexists. split; [apply lookup_insert_eq|]. split.
      * rewrite lookup_insert_ne by discriminate. apply lookup_insert_eq.
      * apply lookup_insert_eq.
    + split.
      * intros _. eexists. split.
        -- rewrite !lookup_insert_ne by congruence. apply lookup_insert_eq.
        -- split; [rewrite lookup_insert_ne by discriminate|]; apply lookup_insert_eq.
      * intros r Hr1 Hr2. rewrite !lookup_insert_ne by congruence. reflexivity.
Qed.

End TrainingCellsFacts.

Section TrainingLoopFacts.

Variable Predictions : Type.
Variable train_model :
  loc -> loc -> loc -> loc -> loc -> ST notebook (Predictions * loc * loc).
Variables X_train y_train X_val y_val : loc.

Hypothesis train_model_fresh : fresh_summaries train_model.

Lemma labelled_kept (w w' : notebook) (r : loc) (model_name split : string) :
  (forall r d, dicts w !! r = Some d -> dicts w' !! r = Some d) ->
  labelled w r model_name split -> labelled w' r model_name split.
Proof.
  intros Hkeep (d & Hd & H1 & H2). exists d. split; [apply Hkeep; exact Hd|].
  split; assumption.
Qed.


(** X17.  Were [train_model] to hand back one dict under both names, the
    second pair of assignments would overwrite the first: the list gets
    that dict twice and it reads [validation], not [training]. *)
Theorem one_dict_for_both_summaries
    (model_name : string) (clf : loc) (c c' : cell)
    (p : Predictions) (r : loc) (w1 : notebook) :
  training_step Predictions train_model X_train y_train X_val y_val model_name clf c
    = (Ret tt, c') ->
  train_model clf X_train y_train X_val y_val (nb c) = (Ret (p, r, r), w1) ->
  models_training_results c' = models_training_results c ++ [r; r] /\
  labelled (nb c') r model_name "validation" /\
  ~ labelled (nb c') r model_name "training".
Proof.
  intros Hstep Hcall.
  destruct (training_step_returns _ _ _ _ _ _ _ _ _ _ Hstep)
    as (p' & tr & va & w1' & dt & dv & Hcall' & _ & _ & Hres & _ & Hlv & _).
  rewrite Hcall in Hcall'. injection Hcall' as _ <- <- _.
  split; [exact Hres|]. split; [exact Hlv|].
  intros (d & Hd & _ & Hsplit). destruct Hlv as (d' & Hd' & _ & Hsplit').
  rewrite Hd in Hd'. injection Hd' as <-. rewrite Hsplit in Hsplit'. discriminate.
Qed.

End TrainingLoopFacts.

Lemma demo_cell_train_model_fresh : fresh_summaries demo_cell_train_model.
Proof.
  intros clf X_train y_train X_val y_val w p tr va w' H.
  unfold demo_cell_train_model in H.
  destruct (model_training.train_model clf X_train y_train X_val y_val (interp w))
    as [[[[p0 tm] vm]|e] s]; [|discriminate].
  cbv zeta in H. injection H as <- <- <- <-. cbn [dicts].
  set (tr := fresh (dom (dicts w))).
  set (va := fresh ({[tr]} ∪ dom (dicts w))).
  assert (Htr : tr ∉ dom (dicts w)) by apply is_fresh.
  assert (Hva : va ∉ {[tr]} ∪ dom (dicts w)) by apply is_fresh.
  assert (Hne : tr <> va) by set_solver.
  split; [exact Hne|].
  split; [apply not_elem_of_dom; exact Htr|].
  split; [apply not_elem_of_dom; set_solver|].
  split; [rewrite lookup_insert_ne by congruence; rewrite lookup_insert_eq; eauto|].
  split; [rewrite lookup_insert_eq; eauto|].
  intros r d Hr.
  assert (Hin : r ∈ dom (dicts w)) by (apply elem_of_dom; eauto).
  rewrite !lookup_insert_ne by set_solver. exact Hr.
Qed.


Lemma one_dict_for_both_summaries_witness :
  exists (c' : cell) (r : loc),
    training_step _ one_dict_train_model X_train_ref y_train_ref X_ref y_ref
      "gdbt_default" model_ref demo_cell = (Ret tt, c') /\
    models_training_results c' = [r; r] /\
    labelled (nb c') r "gdbt_default" "validation" /\
    ~ labelled (nb c') r "gdbt_default" "training".
Proof.
  destruct (training_step _ one_dict_train_model X_train_ref y_train_ref X_ref y_ref
              "gdbt_default" model_ref demo_cell)
    as [[[]|e] c'] eqn:Hrun; [|vm_compute in Hrun; discriminate].
  destruct (one_dict_train_model model_ref X_train_ref y_train_ref X_ref y_ref (nb demo_cell))
    as [[[[p r] r']|e] w1] eqn:Hcall; [|vm_compute in Hcall; discriminate].
  assert (Hsame : r' = r) by (vm_compute in Hcall; congruence).
  subst r'. exists c', r. split; [reflexivity|].
  exact (one_dict_for_both_summaries _ one_dict_train_model X_train_ref y_train_ref
           X_ref y_ref "gdbt_default" model_ref demo_cell c' p r w1 Hrun Hcall).
Defined.
